(** * Civic-complaint admin portal: status updates, notification dispatch, SLA

    A shallow embedding of the services of the admin portal that persist a
    status change, dispatch the matching push notification and evaluate the
    SLA of a complaint, together with the properties stated about them.

    - [SLA]: [SLANotificationService] (slaNotificationService.ts) and the
      SLA rule of [DashboardStatsService] (dashboardStatsService.ts);
    - the Firestore collections, the error type and the effect monad;
    - [ComplaintStatusService] (complaintStatusService.ts), [FCMService]
      (fcmService.ts), [NotificationService] (notificationService.ts);
    - the Cloud Functions [onComplaintStatusChange] and
      [sendCustomNotification] (functions/index.js). *)

From Stdlib Require Import ZArith QArith Qminmax Qround Lia.
From stdpp Require Import base strings gmap list pretty.

Local Open Scope Z_scope.

(** ** SLA monitor *)

Module SLA.

(** A JavaScript number as the SLA code produces it: the time value of an
    invalid [Date] is [NaN], every other value is the quotient of a
    millisecond count.  Finite numbers are exact rationals. *)
Inductive JsNumber : Type :=
| NaN
| Num (q : Q).

(** The fields of a complaint the SLA code reads.  [createdAt] is the time
    value of [new Date(complaint.createdAt)]: milliseconds since the epoch,
    [None] when the date is invalid. *)
Record Complaint : Type := mkComplaint {
  status : option string;
  createdAt : option Z
}.

(** [private static readonly SLA_SECONDS = 48] *)
Definition SLA_SECONDS : Q := 48%Q.

(** [(now.getTime() - createdAt.getTime()) / 1000] *)
Definition secondsSinceCreated (now : Z) (complaint : Complaint) : JsNumber :=
  match createdAt complaint with
  | None => NaN
  | Some created => Num (inject_Z (now - created) / 1000)%Q
  end.

(** [a > b] on JavaScript numbers: false as soon as one side is [NaN]. *)
Definition js_gt (a : JsNumber) (b : Q) : bool :=
  match a with
  | NaN => false
  | Num q => negb (Qle_bool q b)
  end.

(** [Math.max(0, x)]: [NaN] is contagious. *)
Definition math_max0 (x : JsNumber) : JsNumber :=
  match x with
  | NaN => NaN
  | Num q => Num (Qmax 0 q)
  end.

(** [SLA_SECONDS - x] *)
Definition sla_minus (x : JsNumber) : JsNumber :=
  match x with
  | NaN => NaN
  | Num q => Num (SLA_SECONDS - q)%Q
  end.

(** [SLANotificationService.isSLABreached]; [now] is [new Date()]. *)
Definition isSLABreached (now : Z) (complaint : Complaint) : bool :=
  js_gt (secondsSinceCreated now complaint) SLA_SECONDS.

(** [SLANotificationService.getSecondsUntilDeadline] *)
Definition getSecondsUntilDeadline (now : Z) (complaint : Complaint) : JsNumber :=
  math_max0 (sla_minus (secondsSinceCreated now complaint)).

(** The escalation filter of [checkAndNotifyBreaches]: the caller, not
    [isSLABreached], leaves resolved complaints out. *)
Definition needsEscalation (now : Z) (escalated : bool) (complaint : Complaint) : bool :=
  isSLABreached now complaint
  && negb (bool_decide (status complaint = Some "Resolved"))
  && negb escalated.

(** *** Escalation and display *)

(** A complaint as [checkAndNotifyBreaches] sees it:
    [escalatedToHigherAuthority] is the flag it sets ([undefined] is
    [false]). *)
Record Escalation : Type := mkEscalation {
  e_complaint : Complaint;
  escalatedToHigherAuthority : bool
}.

Definition breachedUnescalated (now : Z) (c : Escalation) : bool :=
  needsEscalation now (escalatedToHigherAuthority c) (e_complaint c).

(** [checkAndNotifyBreaches].  [notifyHigherAuthority] only writes the
    notification to the console and does not throw: the first component
    lists the complaints it is called with, in order; the second is the
    array after the loop has set the flag of each of them.  The elements of
    the array are distinct objects. *)
Definition checkAndNotifyBreaches (now : Z) (complaints : list Escalation)
  : list Complaint * list Escalation :=
  (e_complaint <$> filter (λ c, breachedUnescalated now c = true) complaints,
   (λ c, if breachedUnescalated now c then mkEscalation (e_complaint c) true else c)
     <$> complaints).

(** [a < b] on JavaScript numbers: false as soon as one side is [NaN]. *)
Definition js_lt (a : JsNumber) (b : Q) : bool :=
  match a with
  | NaN => false
  | Num q => negb (Qle_bool b q)
  end.

(** [`${Math.ceil(x)}`]; the values of the SLA code stay far below the
    magnitude at which JavaScript switches to exponent notation. *)
Definition ceilString (x : JsNumber) : string :=
  match x with
  | NaN => "NaN"
  | Num q => pretty (Qceiling q)
  end.

(** What [getSLAStatusDisplay] returns. *)
Record SLAStatusDisplay : Type := mkSLAStatusDisplay {
  text : string;
  colorClass : string
}.

(** [SLANotificationService.getSLAStatusDisplay] *)
Definition getSLAStatusDisplay (now : Z) (complaint : Complaint) : SLAStatusDisplay :=
  let isBreach := isSLABreached now complaint in
  let secondsLeft := getSecondsUntilDeadline now complaint in
  if bool_decide (status complaint = Some "Resolved") then
    {| text := "Resolved"; colorClass := "bg-green-100 text-green-800" |}
  else if isBreach then
    {| text := "Breached"; colorClass := "bg-red-100 text-red-800" |}
  else if js_lt secondsLeft 12 then
    {| text := ceilString secondsLeft +:+ "s left";
       colorClass := "bg-red-100 text-red-800" |}
  else if js_lt secondsLeft 24 then
    {| text := ceilString secondsLeft +:+ "s left";
       colorClass := "bg-yellow-100 text-yellow-800" |}
  else
    {| text := ceilString secondsLeft +:+ "s left";
       colorClass := "bg-green-100 text-green-800" |}.

(** *** The rule of [DashboardStatsService] *)

(** The fields of a [UserComplaint] that [DashboardStatsService] reads.
    [uc_createdAt] is [None] when [complaint.createdAt] is falsy, and
    otherwise the time value of the date built from it
    ([createdAt.toDate()] or [new Date(createdAt)]). *)
Record UserComplaint : Type := mkUserComplaint {
  uc_status : option string;
  uc_priority : option string;
  uc_createdAt : option (option Z)
}.

(** Members every object literal inherits from [Object.prototype]:
    [slaHours[priority]] finds them, and they are truthy. *)
Definition objectPrototypeKeys : list string :=
  [ "constructor"; "toString"; "toLocaleString"; "valueOf"; "hasOwnProperty";
    "isPrototypeOf"; "propertyIsEnumerable"; "__proto__";
    "__defineGetter__"; "__defineSetter__"; "__lookupGetter__";
    "__lookupSetter__" ].

(** [slaHours[priority] || 72] with [priority = complaint.priority || 'Medium'];
    [None] stands for an inherited member, which is not a number. *)
Definition slaLimit (complaint : UserComplaint) : option Q :=
  let priority :=
    match uc_priority complaint with
    | Some p => if bool_decide (p = "") then "Medium" else p
    | None => "Medium"
    end in
  if bool_decide (priority = "High") then Some 24%Q
  else if bool_decide (priority = "Medium") then Some 72%Q
  else if bool_decide (priority = "Low") then Some 168%Q
  else if bool_decide (priority ∈ objectPrototypeKeys) then None
  else Some 72%Q.

(** [DashboardStatsService.isSLABreached]; the hours since creation are
    [(now.getTime() - createdDate.getTime()) / (1000 * 60 * 60)]. *)
Definition dashboard_isSLABreached (now : Z) (complaint : UserComplaint) : bool :=
  if bool_decide (uc_status complaint = Some "resolved") then false
  else
    match uc_createdAt complaint with
    | None => false
    | Some createdDate =>
        match createdDate, slaLimit complaint with
        | Some created, Some limit =>
            negb (Qle_bool (inject_Z (now - created) / 3600000)%Q limit)
        | _, _ => false
        end
    end.

End SLA.

(** ** Values, documents and collections *)

(** [ComplaintStatus] of complaintStatusService.ts *)
Inductive ComplaintStatus : Type :=
| submitted
| in_progress
| resolved
| closed.

Definition statusString (st : ComplaintStatus) : string :=
  match st with
  | submitted => "submitted"
  | in_progress => "in-progress"
  | resolved => "resolved"
  | closed => "closed"
  end.

(** The notification kinds of [NotificationLog.type] in fcmService.ts *)
Inductive NotificationKind : Type :=
| confirmation
| acknowledgment
| resolution.

Definition kindString (k : NotificationKind) : string :=
  match k with
  | confirmation => "confirmation"
  | acknowledgment => "acknowledgment"
  | resolution => "resolution"
  end.

(** A field of a complaint document: a string or a Firestore [Timestamp]
    (milliseconds).  An absent field reads as [undefined], i.e. [None]. *)
Inductive Value : Type :=
| VStr (s : string)
| VTime (t : Z).

#[global] Instance Value_eq_dec : EqDecision Value.
Proof. solve_decision. Defined.

(** JavaScript truthiness of a field: [undefined] and the empty string are
    falsy, objects are truthy. *)
Definition truthy (v : option Value) : bool :=
  match v with
  | None => false
  | Some (VStr s) => negb (bool_decide (s = ""))
  | Some (VTime _) => true
  end.

Definition truthyStr (v : option string) : bool :=
  match v with
  | None => false
  | Some s => negb (bool_decide (s = ""))
  end.

(** [v || d] *)
Definition orElse (v : option Value) (d : Value) : Value :=
  match v with
  | Some x => if truthy v then x else d
  | None => d
  end.

Definition orElseStr (v : option string) (d : string) : string :=
  match v with
  | Some s => if truthyStr v then s else d
  | None => d
  end.

(** [StatusUpdateData] *)
Record StatusUpdateData : Type := mkStatusUpdateData {
  su_status : ComplaintStatus;
  su_updatedBy : string;
  su_updatedAt : Z;
  su_notes : option string;
  su_assignedTo : option string;
  su_department : option string;
  su_resolvedImageUrl : option string;
  su_resolvedBy : option string;
  su_resolvedAt : option Z
}.

(** [Omit<StatusHistory, 'id'>]; [previousStatus] is whatever the document
    held. *)
Record StatusHistory : Type := mkStatusHistory {
  h_complaintId : string;
  h_previousStatus : Value;
  h_newStatus : ComplaintStatus;
  h_updatedBy : string;
  h_updatedAt : Z;
  h_notes : option string
}.

(** [FCMTokenData] *)
Record FCMTokenData : Type := mkFCMTokenData {
  t_userId : string;
  t_token : string;
  t_deviceType : string;
  t_createdAt : Z;
  t_updatedAt : Z;
  t_isActive : bool
}.

(** [NotificationPayload], with the [data] object of the templates. *)
Record NotificationPayload : Type := mkNotificationPayload {
  p_title : string;
  p_body : string;
  p_icon : string;
  p_action : option string
}.

(** A document of [notificationLogs]: [NotificationLog] of fcmService.ts and
    the fields the Cloud Functions add to it. *)
Record NotificationLog : Type := mkNotificationLog {
  l_userId : option Value;
  l_complaintId : string;
  l_type : string;
  l_title : string;
  l_body : string;
  l_sentAt : Z;
  l_status : string;
  l_fcmToken : option string;
  l_messageId : option string;
  l_sentBy : option string
}.

(** The message handed to [messaging.send]. *)
Record Message : Type := mkMessage {
  m_token : string;
  m_title : string;
  m_body : string;
  m_icon : string;
  m_complaintId : string;
  m_type : string;
  m_action : string;
  m_clickAction : option string;
  m_link : option string          (* webpush.fcmOptions.link *)
}.

(** The collections and the messaging service's queue. *)
Record Store : Type := mkStore {
  complaints : gmap string (gmap string Value);
  statusHistory : list StatusHistory;
  fcmTokens : gmap string FCMTokenData;
  notificationLogs : list NotificationLog;
  sentMessages : list Message
}.

(** ** Errors, the environment and the effect monad *)

(** [FunctionsErrorCode]: the codes [functions.https.HttpsError] is raised
    with in functions/index.js. *)
Inductive FunctionsErrorCode : Type :=
| unauthenticated
| invalid_argument
| not_found
| failed_precondition
| internal.

(** What a [throw] carries. *)
Inductive JsError : Type :=
| Error (msg : string)
| ReferenceError (msg : string)
| HttpsError (code : FunctionsErrorCode) (msg : string).

(** [error.message] *)
Definition message (e : JsError) : string :=
  match e with
  | Error msg => msg
  | ReferenceError msg => msg
  | HttpsError _ msg => msg
  end.

(** The calls that leave the program: each place where the code awaits
    Firestore, the messaging service or the functions configuration. *)
Inductive CallSite : Type :=
| CS_getDoc        (* updateComplaintStatus: getDoc(userComplaintRef) *)
| CS_updateDoc     (* updateComplaintStatus: updateDoc(userComplaintRef, ..) *)
| CS_addHistory    (* addStatusHistory: addDoc(historyRef, ..) *)
| NS_fetchCurrent  (* updateStatusAndNotify: fetchUserComplaintById *)
| NS_fetchContent  (* triggerNotification: fetchUserComplaintById *)
| FCM_getToken     (* sendNotification: getDoc(tokenRef) *)
| FCM_logSent      (* sendNotification: logNotification(notificationLog) *)
| FCM_logFailed    (* sendNotification: logNotification(failedLog) *)
| TR_getToken      (* onComplaintStatusChange: db.doc(..).get() *)
| TR_config        (* onComplaintStatusChange: functions.config().app.url *)
| TR_send          (* onComplaintStatusChange: messaging.send *)
| TR_logSent       (* onComplaintStatusChange: notificationLogs.add *)
| CN_getToken      (* sendCustomNotification: db.doc(..).get() *)
| CN_send          (* sendCustomNotification: messaging.send *)
| CN_logSent.      (* sendCustomNotification: notificationLogs.add *)

(** What the program does not decide.  [faults site = Some msg] makes the
    call at [site] throw [Error msg]; [None] lets it succeed.  One clock
    reading serves a whole invocation. *)
Record Env : Type := mkEnv {
  faults : CallSite → option string;
  now : Z;                        (* Timestamp.now(), serverTimestamp() *)
  messageId : string;             (* what messaging.send resolves to *)
  appUrl : string;                (* functions.config().app.url *)
  showTimestamp : Z → string      (* a Timestamp inside a template literal *)
}.

(** The outcome of a call: a value or a thrown error. *)
Inductive Result (A : Type) : Type :=
| Ok (a : A)
| Throw (e : JsError).
Arguments Ok {A} a.
Arguments Throw {A} e.

(** A computation on the collections; what was written before a [throw]
    stays written. *)
Definition M (A : Type) : Type := Store → Store * Result A.

Definition ret {A : Type} (a : A) : M A := λ s, (s, Ok a).

Definition throw {A : Type} (e : JsError) : M A := λ s, (s, Throw e).

Definition bind {A B : Type} (m : M A) (k : A → M B) : M B :=
  λ s, match m s with
       | (s', Ok a) => k a s'
       | (s', Throw e) => (s', Throw e)
       end.

(** [try { m } catch (error) { handler error }] *)
Definition tryCatch {A : Type} (m : M A) (handler : JsError → M A) : M A :=
  λ s, match m s with
       | (s', Ok a) => (s', Ok a)
       | (s', Throw e) => handler e s'
       end.

Declare Scope js_scope.
Delimit Scope js_scope with js.
Notation "'await' x <- m ;; k" := (bind m (λ x, k))
  (at level 100, x name, m at next level, k at level 200, right associativity) : js_scope.
Notation "'exec' m ;; k" := (bind m (λ _, k))
  (at level 100, m at next level, k at level 200, right associativity) : js_scope.
Local Open Scope js_scope.

(** An external call that only succeeds or fails. *)
Definition external (env : Env) (site : CallSite) : M unit :=
  match faults env site with
  | Some msg => throw (Error msg)
  | None => ret tt
  end.

(** *** Firestore and messaging primitives *)

(** [getDoc(doc(userDb, 'complaints', id))]: [None] when [!exists()]. *)
Definition getDoc (env : Env) (site : CallSite) (id : string)
  : M (option (gmap string Value)) :=
  exec external env site ;;
  λ s, (s, Ok (complaints s !! id)).

(** [updateDoc(ref, fields)]: merges [fields] into an existing document and
    fails on a missing one. *)
Definition updateDoc (env : Env) (site : CallSite) (id : string)
    (fields : gmap string Value) : M unit :=
  exec external env site ;;
  λ s, match complaints s !! id with
       | None => (s, Throw (Error "No document to update"))
       | Some d =>
           (mkStore (<[id := fields ∪ d]> (complaints s)) (statusHistory s)
                    (fcmTokens s) (notificationLogs s) (sentMessages s),
            Ok tt)
       end.

(** [addDoc(collection(adminDb, 'statusHistory'), historyData)] *)
Definition addHistoryDoc (env : Env) (site : CallSite) (h : StatusHistory) : M unit :=
  exec external env site ;;
  λ s, (mkStore (complaints s) (statusHistory s ++ [h]) (fcmTokens s)
               (notificationLogs s) (sentMessages s),
        Ok tt).

(** [addDoc] / [add] on [notificationLogs] *)
Definition addLogDoc (env : Env) (site : CallSite) (l : NotificationLog) : M unit :=
  exec external env site ;;
  λ s, (mkStore (complaints s) (statusHistory s) (fcmTokens s)
               (notificationLogs s ++ [l]) (sentMessages s),
        Ok tt).

(** The token document [fcmTokens/{key}]: [None] when it does not exist. *)
Definition getTokenDoc (env : Env) (site : CallSite) (key : string)
  : M (option FCMTokenData) :=
  exec external env site ;;
  λ s, (s, Ok (fcmTokens s !! key)).

(** [messaging.send(message)]: queues the message and resolves to its id. *)
Definition messagingSend (env : Env) (site : CallSite) (msg : Message) : M string :=
  exec external env site ;;
  λ s, (mkStore (complaints s) (statusHistory s) (fcmTokens s)
               (notificationLogs s) (sentMessages s ++ [msg]),
        Ok (messageId env)).

(** Modelled from the spec: [fetchUserComplaintById] of userComplaintsService.ts,
    which is not part of the sources.  It reads the complaint with the given
    identifier from the [complaints] collection and yields [null] when there
    is none. *)
Definition fetchUserComplaintById (env : Env) (site : CallSite) (complaintId : string)
  : M (option (gmap string Value)) :=
  getDoc env site complaintId.

(** A value substituted into a template literal. *)
Definition jsString (env : Env) (v : option Value) : string :=
  match v with
  | None => "undefined"
  | Some (VStr s) => s
  | Some (VTime t) => showTimestamp env t
  end.

(** *** The browser side of the messaging client *)

(** The calls of the token life cycle that leave the program. *)
Inductive BrowserSite : Type :=
| BR_requestPermission  (* Notification.requestPermission() *)
| BR_getToken           (* getToken(this.messaging, ..) *)
| BR_saveToken          (* saveTokenToFirestore: setDoc(tokenRef, ..) *)
| BR_removeToken.       (* removeToken: updateDoc(tokenRef, ..) *)

(** What the browser decides for [FCMService]. *)
Record Browser : Type := mkBrowser {
  messagingAvailable : bool;     (* this.messaging was set by the constructor *)
  permissionGranted : bool;      (* requestPermission() resolved to 'granted' *)
  registrationToken : string;    (* what getToken resolves to; empty for none *)
  browserFaults : BrowserSite → option string
}.

Definition browserCall (browser : Browser) (site : BrowserSite) : M unit :=
  match browserFaults browser site with
  | Some msg => throw (Error msg)
  | None => ret tt
  end.

(** [setDoc(doc(userDb, 'fcmTokens', key), tokenData, { merge: true })] with
    all the fields of the record given. *)
Definition setTokenDoc (browser : Browser) (site : BrowserSite) (key : string)
    (tokenData : FCMTokenData) : M unit :=
  exec browserCall browser site ;;
  λ s, (mkStore (complaints s) (statusHistory s) (<[key := tokenData]> (fcmTokens s))
               (notificationLogs s) (sentMessages s),
        Ok tt).

(** [updateDoc(tokenRef, { isActive: false, updatedAt })]: fails on a
    missing document. *)
Definition deactivateTokenDoc (browser : Browser) (site : BrowserSite) (key : string)
    (updatedAt : Z) : M unit :=
  exec browserCall browser site ;;
  λ s, match fcmTokens s !! key with
       | None => (s, Throw (Error "No document to update"))
       | Some t =>
           (mkStore (complaints s) (statusHistory s)
                    (<[key := {| t_userId := t_userId t;
                                 t_token := t_token t;
                                 t_deviceType := t_deviceType t;
                                 t_createdAt := t_createdAt t;
                                 t_updatedAt := updatedAt;
                                 t_isActive := false |}]> (fcmTokens s))
                    (notificationLogs s) (sentMessages s),
            Ok tt)
       end.

(** ** complaintStatusService.ts *)

Module ComplaintStatusService.

(** [...(v && { key: v })]: nothing is spread for a falsy [v]. *)
Definition spreadIf (key : string) (v : option string) (o : gmap string Value)
  : gmap string Value :=
  match v with
  | Some s => if bool_decide (s = "") then o else <[key := VStr s]> o
  | None => o
  end.

(** [o.key = v].  A field assigned [undefined] is never stored: Firestore
    drops it or rejects the write, and a rejected write is a fault of the
    call. *)
Definition assignField (key : string) (v : option Value) (o : gmap string Value)
  : gmap string Value :=
  match v with
  | Some x => <[key := x]> o
  | None => o
  end.

(** The object [updateFields] of [updateComplaintStatus]. *)
Definition updateFields (statusData : StatusUpdateData) : gmap string Value :=
  let fields :=
    spreadIf "lastUpdateNotes" (su_notes statusData)
      (spreadIf "department" (su_department statusData)
        (spreadIf "assignedTo" (su_assignedTo statusData)
          (<["updatedBy" := VStr (su_updatedBy statusData)]>
            (<["updatedAt" := VTime (su_updatedAt statusData)]>
              (<["status" := VStr (statusString (su_status statusData))]> ∅))))) in
  match su_status statusData with
  | resolved =>
      assignField "resolvedAt"
        (Some (VTime (default (su_updatedAt statusData) (su_resolvedAt statusData))))
        (assignField "resolvedBy"
          (Some (VStr (orElseStr (su_resolvedBy statusData) (su_updatedBy statusData))))
          (assignField "resolvedImageBase64" (VStr <$> su_resolvedImageUrl statusData)
            fields))
  | _ => fields
  end.

(** [addStatusHistory]: the error of the append is logged and dropped. *)
Definition addStatusHistory (env : Env) (historyData : StatusHistory) : M unit :=
  tryCatch (addHistoryDoc env CS_addHistory historyData)
           (λ _, ret tt).

(** [updateComplaintStatus] *)
Definition updateComplaintStatus (env : Env) (complaintId : string)
    (statusData : StatusUpdateData) : M unit :=
  tryCatch
    (await currentDoc <- getDoc env CS_getDoc complaintId ;;
     match currentDoc with
     | None => throw (Error ("Complaint " +:+ complaintId +:+ " not found"))
     | Some currentData =>
         let previousStatus := orElse (currentData !! "status") (VStr "submitted") in
         exec updateDoc env CS_updateDoc complaintId (updateFields statusData) ;;
         addStatusHistory env
           {| h_complaintId := complaintId;
              h_previousStatus := previousStatus;
              h_newStatus := su_status statusData;
              h_updatedBy := su_updatedBy statusData;
              h_updatedAt := su_updatedAt statusData;
              h_notes := su_notes statusData |}
     end)
    (λ error,
       throw (Error ("Failed to update complaint status: " +:+ message error))).

(** [assignComplaint] *)
Definition assignComplaint (env : Env) (complaintId assignedTo department assignedBy : string)
    (notes : option string) : M unit :=
  updateComplaintStatus env complaintId
    {| su_status := in_progress;
       su_updatedBy := assignedBy;
       su_updatedAt := now env;
       su_notes :=
         Some (orElseStr notes
                 ("Assigned to " +:+ assignedTo +:+ " in " +:+ department
                  +:+ " department"));
       su_assignedTo := Some assignedTo;
       su_department := Some department;
       su_resolvedImageUrl := None;
       su_resolvedBy := None;
       su_resolvedAt := None |}.


End ComplaintStatusService.

(** ** fcmService.ts *)

Module FCMService.

(** [generateNotificationContent]; the three kinds are all its type admits. *)
Definition generateNotificationContent (env : Env) (type : NotificationKind)
    (complaintData : gmap string Value) : NotificationPayload :=
  let complaintId := jsString env (complaintData !! "complaintId") in
  let category := jsString env (complaintData !! "category") in
  match type with
  | confirmation =>
      {| p_title := "✅ Complaint Submitted Successfully";
         p_body := "Your " +:+ category +:+ " complaint (#" +:+ complaintId
                   +:+ ") has been received and is being processed.";
         p_icon := "/icons/confirmation.png";
         p_action := Some "view_complaint" |}
  | acknowledgment =>
      {| p_title := "🔄 Complaint Acknowledged";
         p_body := "Your " +:+ category +:+ " complaint (#" +:+ complaintId
                   +:+ ") has been assigned and is now in progress.";
         p_icon := "/icons/in-progress.png";
         p_action := Some "view_progress" |}
  | resolution =>
      {| p_title := "✨ Complaint Resolved";
         p_body := "Great news! Your " +:+ category +:+ " complaint (#" +:+ complaintId
                   +:+ ") has been resolved.";
         p_icon := "/icons/resolved.png";
         p_action := Some "view_resolution" |}
  end.

(** [logNotification]: the error of the append is logged and dropped. *)
Definition logNotification (env : Env) (site : CallSite) (log : NotificationLog) : M unit :=
  tryCatch (addLogDoc env site log) (λ _, ret tt).

(** [sendNotification].  The send itself is left to a backend: this method
    records the attempt and hands nothing to the messaging service. *)
Definition sendNotification (env : Env) (userId : option Value) (complaintId : string)
    (type : NotificationKind) (payload : NotificationPayload) : M bool :=
  tryCatch
    (await tokenDoc <- getTokenDoc env FCM_getToken (jsString env userId +:+ "_web") ;;
     match tokenDoc with
     | None => ret false
     | Some tokenData =>
         if negb (t_isActive tokenData) then ret false
         else
           exec logNotification env FCM_logSent
             {| l_userId := userId;
                l_complaintId := complaintId;
                l_type := kindString type;
                l_title := p_title payload;
                l_body := p_body payload;
                l_sentAt := now env;
                l_status := "sent";
                l_fcmToken := Some (t_token tokenData);
                l_messageId := None;
                l_sentBy := None |} ;;
           ret true
     end)
    (λ _,
       exec logNotification env FCM_logFailed
         {| l_userId := userId;
            l_complaintId := complaintId;
            l_type := kindString type;
            l_title := p_title payload;
            l_body := p_body payload;
            l_sentAt := now env;
            l_status := "failed";
            l_fcmToken := None;
            l_messageId := None;
            l_sentBy := None |} ;;
       ret false).

(** [saveTokenToFirestore]: the error of the write is logged and dropped. *)
Definition saveTokenToFirestore (env : Env) (browser : Browser) (userId token : string)
  : M unit :=
  tryCatch
    (setTokenDoc browser BR_saveToken (userId +:+ "_web")
       {| t_userId := userId;
          t_token := token;
          t_deviceType := "web";
          t_createdAt := now env;
          t_updatedAt := now env;
          t_isActive := true |})
    (λ _, ret tt).

(** [requestPermissionAndGetToken] *)
Definition requestPermissionAndGetToken (env : Env) (browser : Browser) (userId : string)
  : M (option string) :=
  tryCatch
    (if negb (messagingAvailable browser) then ret None
     else
       exec browserCall browser BR_requestPermission ;;
       if negb (permissionGranted browser) then ret None
       else
         exec browserCall browser BR_getToken ;;
         let token := registrationToken browser in
         if negb (bool_decide (token = "")) then
           exec saveTokenToFirestore env browser userId token ;;
           ret (Some token)
         else ret None)
    (λ _, ret None).

(** [removeToken]: the error of the write is logged and dropped. *)
Definition removeToken (env : Env) (browser : Browser) (userId : string) : M unit :=
  tryCatch
    (deactivateTokenDoc browser BR_removeToken (userId +:+ "_web") (now env))
    (λ _, ret tt).

End FCMService.

(** ** notificationService.ts *)

Module NotificationService.

(** [NotificationTrigger] *)
Record NotificationTrigger : Type := mkNotificationTrigger {
  n_complaintId : string;
  n_userId : option Value;
  n_previousStatus : Value;
  n_newStatus : ComplaintStatus;
  n_updatedBy : string;
  n_notes : option string
}.

(** The [options] argument of [updateStatusAndNotify]. *)
Record Options : Type := mkOptions {
  o_assignedTo : option string;
  o_department : option string;
  o_notes : option string
}.

(** The [switch (newStatus)] of [triggerNotification]; [None] is its
    [default: return]. *)
Definition notificationTypeOf (newStatus : ComplaintStatus) : option NotificationKind :=
  match newStatus with
  | submitted => Some confirmation
  | in_progress => Some acknowledgment
  | resolved => Some resolution
  | closed => None
  end.

(** [triggerNotification]: no error leaves it. *)
Definition triggerNotification (env : Env) (trigger : NotificationTrigger) : M unit :=
  tryCatch
    (await complaint <- fetchUserComplaintById env NS_fetchContent (n_complaintId trigger) ;;
     match complaint with
     | None => ret tt
     | Some complaint =>
         match notificationTypeOf (n_newStatus trigger) with
         | None => ret tt
         | Some notificationType =>
             let notificationPayload :=
               FCMService.generateNotificationContent env notificationType complaint in
             exec FCMService.sendNotification env (n_userId trigger)
                    (n_complaintId trigger) notificationType notificationPayload ;;
             ret tt
         end
     end)
    (λ _, ret tt).

(** [updateStatusAndNotify] *)
Definition updateStatusAndNotify (env : Env) (complaintId : string)
    (newStatus : ComplaintStatus) (updatedBy : string) (options : Options) : M unit :=
  tryCatch
    (await complaint <- fetchUserComplaintById env NS_fetchCurrent complaintId ;;
     match complaint with
     | None => throw (Error ("Complaint " +:+ complaintId +:+ " not found"))
     | Some complaint =>
         let previousStatus := orElse (complaint !! "status") (VStr "submitted") in
         exec ComplaintStatusService.updateComplaintStatus env complaintId
           {| su_status := newStatus;
              su_updatedBy := updatedBy;
              su_updatedAt := now env;
              su_notes := o_notes options;
              su_assignedTo := o_assignedTo options;
              su_department := o_department options;
              su_resolvedImageUrl := None;
              su_resolvedBy := None;
              su_resolvedAt := None |} ;;
         triggerNotification env
           {| n_complaintId := complaintId;
              n_userId := complaint !! "userId";
              n_previousStatus := previousStatus;
              n_newStatus := newStatus;
              n_updatedBy := updatedBy;
              n_notes := o_notes options |}
     end)
    (λ error, throw error).

(** [cleanupUserNotifications] *)
Definition cleanupUserNotifications (env : Env) (browser : Browser) (userId : string)
  : M unit :=
  tryCatch (FCMService.removeToken env browser userId) (λ _, ret tt).

End NotificationService.

(** ** functions/index.js *)

Module Functions.

(** [generateNotificationContent(type, complaintData)], called with one of
    the three kinds. *)
Definition generateNotificationContent (env : Env) (type : NotificationKind)
    (complaintData : gmap string Value) : NotificationPayload :=
  let complaintId := jsString env (complaintData !! "complaintId") in
  let category := jsString env (complaintData !! "category") in
  match type with
  | confirmation =>
      {| p_title := "✅ Complaint Submitted Successfully";
         p_body := "Your " +:+ category +:+ " complaint (#" +:+ complaintId
                   +:+ ") has been received and is being processed.";
         p_icon := "/icons/confirmation.png";
         p_action := Some "view_complaint" |}
  | acknowledgment =>
      {| p_title := "🔄 Complaint Acknowledged";
         p_body := "Your " +:+ category +:+ " complaint (#" +:+ complaintId
                   +:+ ") has been assigned and is now in progress.";
         p_icon := "/icons/in-progress.png";
         p_action := Some "view_progress" |}
  | resolution =>
      {| p_title := "✨ Complaint Resolved";
         p_body := "Great news! Your " +:+ category +:+ " complaint (#" +:+ complaintId
                   +:+ ") has been resolved.";
         p_icon := "/icons/resolved.png";
         p_action := Some "view_resolution" |}
  end.

(** The choice of [notificationType] in [onComplaintStatusChange]: a write
    with no previous document is a confirmation whatever its status; a
    changed status is looked up in the [switch]. *)
Definition notificationTypeOf (oldData : option (gmap string Value))
    (newData : gmap string Value) : option NotificationKind :=
  let newStatus := newData !! "status" in
  match oldData with
  | None => Some confirmation
  | Some old =>
      let oldStatus := old !! "status" in
      if bool_decide (oldStatus ≠ newStatus) then
        if bool_decide (newStatus = Some (VStr "in-progress")) then Some acknowledgment
        else if bool_decide (newStatus = Some (VStr "resolved")) then Some resolution
        else None
      else None
  end.

(** [onComplaintStatusChange]: [before] and [after] are the two snapshots of
    the write ([None] when [!exists]), [complaintId] comes from the path.
    [newData] is declared inside the [try] block, so the [catch] block cannot
    read it: evaluating [newData?.userId] there raises a [ReferenceError]
    before anything is logged. *)
Definition onComplaintStatusChange (env : Env) (before after : option (gmap string Value))
    (complaintId : string) : M (option string) :=
  tryCatch
    (match after with
     | None => ret None
     | Some newData =>
         let userId := newData !! "userId" in
         if negb (truthy userId) then ret None
         else
           match notificationTypeOf before newData with
           | None => ret None
           | Some notificationType =>
               await tokenDoc <- getTokenDoc env TR_getToken (jsString env userId +:+ "_web") ;;
               match tokenDoc with
               | None => ret None
               | Some tokenData =>
                   if negb (t_isActive tokenData) then ret None
                   else
                     let notificationContent :=
                       generateNotificationContent env notificationType newData in
                     exec external env TR_config ;;
                     await response <- messagingSend env TR_send
                       {| m_token := t_token tokenData;
                          m_title := p_title notificationContent;
                          m_body := p_body notificationContent;
                          m_icon := p_icon notificationContent;
                          m_complaintId := complaintId;
                          m_type := kindString notificationType;
                          m_action := default "" (p_action notificationContent);
                          m_clickAction :=
                            Some (appUrl env +:+ "/complaints/" +:+ complaintId);
                          m_link :=
                            Some (appUrl env +:+ "/complaints/" +:+ complaintId) |} ;;
                     exec addLogDoc env TR_logSent
                       {| l_userId := userId;
                          l_complaintId := complaintId;
                          l_type := kindString notificationType;
                          l_title := p_title notificationContent;
                          l_body := p_body notificationContent;
                          l_sentAt := now env;
                          l_status := "sent";
                          l_fcmToken := Some (t_token tokenData);
                          l_messageId := Some response;
                          l_sentBy := None |} ;;
                     ret (Some response)
               end
           end
     end)
    (λ _, throw (ReferenceError "newData is not defined")).

(** The [data] argument of the callable function. *)
Record CustomData : Type := mkCustomData {
  d_userId : option string;
  d_complaintId : option string;
  d_title : option string;
  d_body : option string;
  d_type : option string
}.

(** What the callable function returns. *)
Record CustomResult : Type := mkCustomResult {
  success : bool;
  r_messageId : string
}.

(** [sendCustomNotification]: [auth] is [context.auth], reduced to its
    [uid].  The lookup errors are thrown inside the [try] block, whose
    [catch] rethrows everything as [internal]. *)
Definition sendCustomNotification (env : Env) (auth : option string) (data : CustomData)
  : M CustomResult :=
  match auth with
  | None => throw (HttpsError unauthenticated "User must be authenticated")
  | Some uid =>
      if negb (truthyStr (d_userId data)) || negb (truthyStr (d_complaintId data))
         || negb (truthyStr (d_title data)) || negb (truthyStr (d_body data))
      then throw (HttpsError invalid_argument "Missing required fields")
      else
        let userId := default "" (d_userId data) in
        let complaintId := default "" (d_complaintId data) in
        let title := default "" (d_title data) in
        let body := default "" (d_body data) in
        let type := orElseStr (d_type data) "custom" in
        tryCatch
          (await tokenDoc <- getTokenDoc env CN_getToken (userId +:+ "_web") ;;
           match tokenDoc with
           | None => throw (HttpsError not_found "FCM token not found for user")
           | Some tokenData =>
               if negb (t_isActive tokenData)
               then throw (HttpsError failed_precondition "FCM token is inactive")
               else
                 await response <- messagingSend env CN_send
                   {| m_token := t_token tokenData;
                      m_title := title;
                      m_body := body;
                      m_icon := "/icons/notification.png";
                      m_complaintId := complaintId;
                      m_type := type;
                      m_action := "view_complaint";
                      m_clickAction := None;
                      m_link := None |} ;;
                 exec addLogDoc env CN_logSent
                   {| l_userId := Some (VStr userId);
                      l_complaintId := complaintId;
                      l_type := type;
                      l_title := title;
                      l_body := body;
                      l_sentAt := now env;
                      l_status := "sent";
                      l_fcmToken := Some (t_token tokenData);
                      l_messageId := Some response;
                      l_sentBy := Some uid |} ;;
                 ret {| success := true; r_messageId := response |}
           end)
          (λ error, throw (HttpsError internal (message error)))
  end.

(** The calls of [cleanupNotificationLogs] that leave the program. *)
Inductive CleanupSite : Type :=
| CL_query    (* oldLogsQuery.get() *)
| CL_commit.  (* batch.commit() *)

(** Thirty days in milliseconds: [setDate(getDate() - 30)] in a runtime
    whose time zone has no clock change (Cloud Functions run in UTC). *)
Definition retentionMs : Z := 30 * 24 * 60 * 60 * 1000.

(** [where('sentAt', '<', cutoffDate)] *)
Definition olderThan (cutoff : Z) (l : NotificationLog) : bool :=
  bool_decide (l_sentAt l < cutoff).

(** [cleanupNotificationLogs]: returns [null] on every path. *)
Definition cleanupNotificationLogs (env : Env) (cleanupFaults : CleanupSite → option string)
  : M unit :=
  let cutoff := now env - retentionMs in
  let call site : M unit :=
    match cleanupFaults site with
    | Some msg => throw (Error msg)
    | None => ret tt
    end in
  tryCatch
    (exec call CL_query ;;
     λ s,
       match filter (λ l, olderThan cutoff l = true) (notificationLogs s) with
       | [] => (s, Ok tt)
       | _ :: _ =>
           (exec call CL_commit ;;
            λ s', (mkStore (complaints s') (statusHistory s') (fcmTokens s')
                     (filter (λ l, olderThan cutoff l = false) (notificationLogs s'))
                     (sentMessages s'),
                   Ok tt)) s
       end)
    (λ _, ret tt).

End Functions.

(** ** dashboardStatsService.ts *)

Module DashboardStatsService.

(** The complaints that [fetchUserComplaints] hands over, with the one more
    field the statistics read. *)
Record StatsComplaint : Type := mkStatsComplaint {
  sc_complaint : SLA.UserComplaint;
  sc_department : option string
}.

(** [DashboardStats] *)
Record DashboardStats : Type := mkDashboardStats {
  totalIssues : nat;
  resolvedCount : nat;      (* resolved *)
  pendingCount : nat;       (* pending *)
  escalatedCount : nat;     (* escalated *)
  slaBreached : nat
}.

Definition zeroStats : DashboardStats := mkDashboardStats 0 0 0 0 0.

Section Statistics.

(** [String.prototype.toLowerCase] *)
Variable toLowerCase : string → string.

(** [complaint.status?.toLowerCase()] *)
Definition lowerStatus (c : StatsComplaint) : option string :=
  toLowerCase <$> SLA.uc_status (sc_complaint c).

Definition isResolved (c : StatsComplaint) : bool :=
  bool_decide (lowerStatus c = Some "resolved").

Definition isPending (c : StatsComplaint) : bool :=
  bool_decide (lowerStatus c = Some "submitted")
  || bool_decide (lowerStatus c = Some "in-progress")
  || bool_decide (lowerStatus c = Some "open").

Definition isEscalated (c : StatsComplaint) : bool :=
  bool_decide (lowerStatus c = Some "escalated").

Definition count (p : StatsComplaint → bool) (cs : list StatsComplaint) : nat :=
  length (filter (λ c, p c = true) cs).

(** The five counters computed from a list of complaints. *)
Definition statsOf (now : Z) (complaints : list StatsComplaint) : DashboardStats :=
  {| totalIssues := length complaints;
     resolvedCount := count isResolved complaints;
     pendingCount := count isPending complaints;
     escalatedCount := count isEscalated complaints;
     slaBreached :=
       count (λ c, SLA.dashboard_isSLABreached now (sc_complaint c)) complaints |}.

(** [getDashboardStats]; [fetched] is the outcome of [fetchUserComplaints],
    which is not part of the sources. *)
Definition getDashboardStats (now : Z) (fetched : Result (list StatsComplaint))
  : DashboardStats :=
  match fetched with
  | Ok complaints => statsOf now complaints
  | Throw _ => zeroStats
  end.

(** [complaint.department || 'Unassigned'] *)
Definition departmentOf (c : StatsComplaint) : string :=
  orElseStr (sc_department c) "Unassigned".

(** The [reduce] of [getDepartmentStats].  [groups] is an object literal: a
    department named like a member of [Object.prototype] finds that member,
    which has no [push], and the [TypeError] ends the reduction ([None]). *)
Fixpoint groupByDepartment (complaints : list StatsComplaint)
    (groups : gmap string (list StatsComplaint))
  : option (gmap string (list StatsComplaint)) :=
  match complaints with
  | [] => Some groups
  | c :: rest =>
      let dept := departmentOf c in
      if bool_decide (dept ∈ SLA.objectPrototypeKeys) then None
      else groupByDepartment rest (<[dept := default [] (groups !! dept) ++ [c]]> groups)
  end.

(** [getDepartmentStats]: [{}] on every error. *)
Definition getDepartmentStats (now : Z) (fetched : Result (list StatsComplaint))
  : gmap string DashboardStats :=
  match fetched with
  | Ok complaints =>
      match groupByDepartment complaints ∅ with
      | Some groups => statsOf now <$> groups
      | None => ∅
      end
  | Throw _ => ∅
  end.

End Statistics.

End DashboardStatsService.

(** ** Specification vocabulary *)

(** The submitter has no usable Device Token Record under [key]: the
    document is absent or marked inactive. *)
Definition tokenUnavailable (s : Store) (key : string) : Prop :=
  match fcmTokens s !! key with
  | None => True
  | Some tokenData => t_isActive tokenData = false
  end.

(** The pairing the specification demands between the kind of a log entry
    and the write behind it: [prior] is the document before the write,
    [newStatus] the status after it. *)
Definition kindPairsWithTransition (kind : string)
    (prior : option (gmap string Value)) (newStatus : option Value) : Prop :=
  (kind = "confirmation" → prior = None ∧ newStatus = Some (VStr "submitted"))
  ∧ (kind = "acknowledgment" → newStatus = Some (VStr "in-progress"))
  ∧ (kind = "resolution" → newStatus = Some (VStr "resolved")).

(** The pairing the Trigger Handler keeps: a confirmation answers a write
    with no previous document; the other two kinds answer a change of the
    status of an existing document. *)
Definition triggerKindRule (kind : NotificationKind)
    (before : option (gmap string Value)) (newData : gmap string Value) : Prop :=
  match kind with
  | confirmation => before = None
  | acknowledgment =>
      ∃ old, before = Some old
             ∧ old !! "status" ≠ newData !! "status"
             ∧ newData !! "status" = Some (VStr "in-progress")
  | resolution =>
      ∃ old, before = Some old
             ∧ old !! "status" ≠ newData !! "status"
             ∧ newData !! "status" = Some (VStr "resolved")
  end.

(** The pairing the Orchestrator's direct dispatch keeps: the kind follows
    the requested status alone. *)
Definition orchestratorKindRule (kind : NotificationKind) (newStatus : ComplaintStatus)
  : Prop :=
  match kind with
  | confirmation => newStatus = submitted
  | acknowledgment => newStatus = in_progress
  | resolution => newStatus = resolved
  end.

(** The fields of a complaint document that a status update may write. *)
Definition writtenKeys : list string :=
  [ "status"; "updatedAt"; "updatedBy"; "assignedTo"; "department";
    "lastUpdateNotes"; "resolvedImageBase64"; "resolvedBy"; "resolvedAt" ].

(** The fields that only a resolution writes. *)
Definition resolutionKeys : list string :=
  [ "resolvedImageBase64"; "resolvedBy"; "resolvedAt" ].

(** The four required fields of a custom notification are all truthy. *)
Definition requiredPresent (data : Functions.CustomData) : bool :=
  truthyStr (Functions.d_userId data) && truthyStr (Functions.d_complaintId data)
  && truthyStr (Functions.d_title data) && truthyStr (Functions.d_body data).

(** The status data that [updateStatusAndNotify] hands to the status
    service. *)
Definition orchestratorUpdate (env : Env) (newStatus : ComplaintStatus) (updatedBy : string)
    (options : NotificationService.Options) : StatusUpdateData :=
  {| su_status := newStatus;
     su_updatedBy := updatedBy;
     su_updatedAt := now env;
     su_notes := NotificationService.o_notes options;
     su_assignedTo := NotificationService.o_assignedTo options;
     su_department := NotificationService.o_department options;
     su_resolvedImageUrl := None;
     su_resolvedBy := None;
     su_resolvedAt := None |}.

(** The record that [saveTokenToFirestore] writes. *)
Definition freshToken (env : Env) (userId token : string) : FCMTokenData :=
  {| t_userId := userId;
     t_token := token;
     t_deviceType := "web";
     t_createdAt := now env;
     t_updatedAt := now env;
     t_isActive := true |}.

(** The store after the token record under [key] was set to [tokenData]. *)
Definition withToken (s : Store) (key : string) (tokenData : FCMTokenData) : Store :=
  mkStore (complaints s) (statusHistory s) (<[key := tokenData]> (fcmTokens s))
          (notificationLogs s) (sentMessages s).

(** The complaints of one department, in their order. *)
Definition ofDepartment (d : string)
    (cs : list DashboardStatsService.StatsComplaint)
  : list DashboardStatsService.StatsComplaint :=
  filter (λ c, DashboardStatsService.departmentOf c = d) cs.

(** ** Sample data *)

(** An environment in which every external call succeeds. *)
Definition calmEnv : Env :=
  {| faults := λ _, None;
     now := 1700000000000;
     messageId := "projects/portal/messages/1";
     appUrl := "https://portal.example";
     showTimestamp := λ _, "[object Object]" |}.

(** As [calmEnv], but the append to the status history is refused. *)
Definition historyDownEnv : Env :=
  {| faults := λ site,
       match site with
       | CS_addHistory => Some "permission-denied"
       | _ => None
       end;
     now := 1700000000000;
     messageId := "projects/portal/messages/1";
     appUrl := "https://portal.example";
     showTimestamp := λ _, "[object Object]" |}.

(** As [calmEnv], but the notification log refuses the "sent" entry. *)
Definition logDownEnv : Env :=
  {| faults := λ site,
       match site with
       | FCM_logSent => Some "unavailable"
       | _ => None
       end;
     now := 1700000000000;
     messageId := "projects/portal/messages/1";
     appUrl := "https://portal.example";
     showTimestamp := λ _, "[object Object]" |}.

Definition complaintWithStatus (st : string) : gmap string Value :=
  <["complaintId" := VStr "C1"]>
    (<["userId" := VStr "u1"]>
      (<["category" := VStr "Road Maintenance"]>
        (<["status" := VStr st]> ∅))).

Definition tokenOfU1 (active : bool) : FCMTokenData :=
  {| t_userId := "u1";
     t_token := "token-u1";
     t_deviceType := "web";
     t_createdAt := 1690000000000;
     t_updatedAt := 1690000000000;
     t_isActive := active |}.

(** Complaint C1, submitted by u1, who has an active token. *)
Definition storeWithToken : Store :=
  mkStore {[ "C1" := complaintWithStatus "submitted" ]} []
          {[ "u1_web" := tokenOfU1 true ]} [] [].

(** Complaint C1, submitted by u1, whose token was deactivated. *)
Definition storeInactiveToken : Store :=
  mkStore {[ "C1" := complaintWithStatus "submitted" ]} []
          {[ "u1_web" := tokenOfU1 false ]} [] [].

(** The update {status: "resolved", notes: "fixed", image: X}. *)
Definition resolvedUpdate (X : string) : StatusUpdateData :=
  {| su_status := resolved;
     su_updatedBy := "admin-1";
     su_updatedAt := 1700000000000;
     su_notes := Some "fixed";
     su_assignedTo := None;
     su_department := None;
     su_resolvedImageUrl := Some X;
     su_resolvedBy := None;
     su_resolvedAt := None |}.

(** An environment in which the update goes through and every call of the
    dispatch fails. *)
Definition dispatchDownEnv : Env :=
  {| faults := λ site,
       match site with
       | NS_fetchContent | FCM_getToken | FCM_logSent | FCM_logFailed =>
           Some "unavailable"
       | _ => None
       end;
     now := 1700000000000;
     messageId := "projects/portal/messages/1";
     appUrl := "https://portal.example";
     showTimestamp := λ _, "[object Object]" |}.

(** As [calmEnv], but the endpoint cannot write to the notification log. *)
Definition customLogDownEnv : Env :=
  {| faults := λ site,
       match site with
       | CN_logSent => Some "unavailable"
       | _ => None
       end;
     now := 1700000000000;
     messageId := "projects/portal/messages/1";
     appUrl := "https://portal.example";
     showTimestamp := λ _, "[object Object]" |}.

(** A log with one entry from 2020 and one a second old. *)
Definition agedLogStore : Store :=
  mkStore ∅ [] ∅
    [ mkNotificationLog (Some (VStr "u1")) "C1" "confirmation" "t" "b"
        1600000000000 "sent" None None None;
      mkNotificationLog (Some (VStr "u1")) "C1" "resolution" "t" "b"
        1699999999000 "sent" None None None ] [].

(** A browser that grants everything and yields the token "token-new". *)
Definition willingBrowser : Browser :=
  {| messagingAvailable := true;
     permissionGranted := true;
     registrationToken := "token-new";
     browserFaults := λ _, None |}.

(** * Properties *)

(** ** SLA monitor *)

Section SLAFacts.

Import SLA.

(** Seconds and milliseconds: [z / 1000 <= k] as an integer comparison. *)
Lemma seconds_le_iff (z k : Z) :
  (inject_Z z / 1000 <= inject_Z k)%Q ↔ z ≤ k * 1000.
Proof. unfold Qle, Qdiv, Qmult, Qinv, inject_Z; simpl; lia. Qed.

Lemma seconds_left_le (z1 z2 : Z) :
  z1 ≤ z2 →
  (SLA_SECONDS - inject_Z z2 / 1000 <= SLA_SECONDS - inject_Z z1 / 1000)%Q.
Proof.
  intros Hle.
  unfold SLA_SECONDS, Qle, Qminus, Qplus, Qopp, Qdiv, Qmult, Qinv, inject_Z; simpl; lia.
Qed.

Lemma seconds_left_lt (z1 z2 : Z) :
  z1 < z2 →
  (SLA_SECONDS - inject_Z z2 / 1000 < SLA_SECONDS - inject_Z z1 / 1000)%Q.
Proof.
  intros Hlt.
  unfold SLA_SECONDS, Qlt, Qminus, Qplus, Qopp, Qdiv, Qmult, Qinv, inject_Z; simpl; lia.
Qed.

Lemma seconds_left_nonpos (z : Z) :
  (SLA_SECONDS - inject_Z z / 1000 <= 0)%Q ↔ 48000 ≤ z.
Proof.
  unfold SLA_SECONDS, Qle, Qminus, Qplus, Qopp, Qdiv, Qmult, Qinv, inject_Z; simpl; lia.
Qed.

(** [Math.max(0, x)] is literally [0] for [x <= 0]. *)
Lemma Qmax0_nonpos (q : Q) : (q <= 0)%Q → Qmax 0 q = 0%Q.
Proof.
  intros Hq. unfold Qmax, GenericMinMax.gmax.
  destruct (0 ?= q)%Q eqn:Hcmp; try reflexivity.
  apply Qlt_alt in Hcmp. destruct (Qlt_not_le _ _ Hcmp Hq).
Qed.

Lemma Qmax0_pos (q : Q) : (0 < q)%Q → Qmax 0 q = q.
Proof.
  intros Hq. unfold Qmax, GenericMinMax.gmax.
  pose proof (proj1 (Qlt_alt 0 q) Hq) as Hlt. now rewrite Hlt.
Qed.

(** The breach test looks at the elapsed time and at nothing else. *)
Lemma isSLABreached_elapsed (now : Z) (c : Complaint) :
  isSLABreached now c = true ↔
  ∃ created, createdAt c = Some created ∧ 48000 < now - created.
Proof.
  unfold isSLABreached, secondsSinceCreated, js_gt.
  destruct (createdAt c) as [created|]; simpl.
  - rewrite negb_true_iff, <- not_true_iff_false, Qle_bool_iff.
    change SLA_SECONDS with (inject_Z 48). rewrite seconds_le_iff.
    split.
    + intros Hn. exists created. split; [reflexivity | lia].
    + intros (t & [= <-] & Hlt). lia.
  - split; [discriminate | intros (t & [=] & _)].
Qed.

Lemma getSecondsUntilDeadline_created (now created : Z) (c : Complaint) :
  createdAt c = Some created →
  getSecondsUntilDeadline now c
  = Num (Qmax 0 (SLA_SECONDS - inject_Z (now - created) / 1000)).
Proof.
  intros Hc. unfold getSecondsUntilDeadline, secondsSinceCreated. now rewrite Hc.
Qed.

(** The escalation filter is where resolved complaints are left out. *)
Lemma needsEscalation_Resolved (now : Z) (escalated : bool) (c : Complaint) :
  status c = Some "Resolved" → needsEscalation now escalated c = false.
Proof.
  intros Hs. unfold needsEscalation. rewrite Hs.
  rewrite bool_decide_true by reflexivity. simpl. now rewrite andb_false_r.
Qed.

End SLAFacts.

(** C1, as stated, fails: [SLANotificationService.isSLABreached] reports a
    breach for a resolved complaint created 49 seconds ago. *)
Lemma isSLABreached_resolved_counterexample :
  SLA.status (SLA.mkComplaint (Some "resolved") (Some 0)) = Some "resolved"
  ∧ SLA.isSLABreached 49000 (SLA.mkComplaint (Some "resolved") (Some 0)) = true.
Proof. split; reflexivity. Qed.

(** C1 (amended): for a complaint whose status is "resolved",
    [SLANotificationService.isSLABreached] does not consult the status and
    reports a breach exactly when more than 48 seconds (48000 ms) lie between
    a valid creation time and now; it is [DashboardStatsService.isSLABreached]
    that returns false for every resolved complaint, whatever the elapsed
    time. *)
Theorem isSLABreached_resolved_by_service
    (now : Z) (c : SLA.Complaint) (u : SLA.UserComplaint)
    (Hc : SLA.status c = Some "resolved")
    (Hu : SLA.uc_status u = Some "resolved") :
  (SLA.isSLABreached now c = true ↔
     ∃ created, SLA.createdAt c = Some created ∧ 48000 < now - created)
  ∧ SLA.dashboard_isSLABreached now u = false.
Proof.
  split.
  - apply isSLABreached_elapsed.
  - unfold SLA.dashboard_isSLABreached. rewrite Hu.
    now rewrite bool_decide_true by reflexivity.
Qed.

Lemma isSLABreached_resolved_by_service_witness :
  (SLA.isSLABreached 49000 (SLA.mkComplaint (Some "resolved") (Some 0)) = true ↔
     ∃ created, SLA.createdAt (SLA.mkComplaint (Some "resolved") (Some 0)) = Some created
                ∧ 48000 < 49000 - created)
  ∧ SLA.dashboard_isSLABreached 49000
      (SLA.mkUserComplaint (Some "resolved") (Some "High") (Some (Some 0))) = false.
Proof.
  apply (isSLABreached_resolved_by_service 49000
           (SLA.mkComplaint (Some "resolved") (Some 0))
           (SLA.mkUserComplaint (Some "resolved") (Some "High") (Some (Some 0))));
    reflexivity.
Defined.

(** C6: for a complaint created at [created], [getSecondsUntilDeadline]
    yields a number at every reading of the clock; as the clock advances the
    value does not grow, and it falls strictly while the deadline is ahead; it
    is never negative; and it is exactly 0 as soon as 48 seconds have
    elapsed. *)
Theorem getSecondsUntilDeadline_decreases_to_zero
    (created now1 now2 : Z) (c : SLA.Complaint)
    (Hcreated : SLA.createdAt c = Some created)
    (Hadvance : now1 ≤ now2) :
  ∃ r1 r2 : Q,
    SLA.getSecondsUntilDeadline now1 c = SLA.Num r1
    ∧ SLA.getSecondsUntilDeadline now2 c = SLA.Num r2
    ∧ (r2 <= r1)%Q
    ∧ (0 <= r1)%Q ∧ (0 <= r2)%Q
    ∧ (now1 < now2 → now1 - created < 48000 → (r2 < r1)%Q)
    ∧ (48000 ≤ now2 - created → SLA.getSecondsUntilDeadline now2 c = SLA.Num 0).
Proof.
  rewrite !(getSecondsUntilDeadline_created _ created c Hcreated).
  eexists _, _. split; [reflexivity|]. split; [reflexivity|].
  split; [|split; [|split; [|split]]].
  - apply Q.max_le_compat_l, seconds_left_le. lia.
  - apply Q.le_max_l.
  - apply Q.le_max_l.
  - intros Hlt Hbefore.
    assert (Hpos : (0 < SLA.SLA_SECONDS - inject_Z (now1 - created) / 1000)%Q).
    { apply Qnot_le_lt. rewrite seconds_left_nonpos. lia. }
    rewrite (Qmax0_pos _ Hpos).
    apply Q.max_lub_lt; [exact Hpos | apply seconds_left_lt; lia].
  - intros Hover. f_equal. apply Qmax0_nonpos, seconds_left_nonpos, Hover.
Qed.

Lemma getSecondsUntilDeadline_decreases_to_zero_witness :
  ∃ r1 r2 : Q,
    SLA.getSecondsUntilDeadline 47000 (SLA.mkComplaint (Some "submitted") (Some 0))
      = SLA.Num r1
    ∧ SLA.getSecondsUntilDeadline 48000 (SLA.mkComplaint (Some "submitted") (Some 0))
      = SLA.Num r2
    ∧ (r2 <= r1)%Q
    ∧ (0 <= r1)%Q ∧ (0 <= r2)%Q
    ∧ (47000 < 48000 → 47000 - 0 < 48000 → (r2 < r1)%Q)
    ∧ (48000 ≤ 48000 - 0 →
       SLA.getSecondsUntilDeadline 48000 (SLA.mkComplaint (Some "submitted") (Some 0))
       = SLA.Num 0).
Proof.
  apply (getSecondsUntilDeadline_decreases_to_zero 0 47000 48000
           (SLA.mkComplaint (Some "submitted") (Some 0))).
  - reflexivity.
  - lia.
Defined.

(** ** Status updates *)

Section StatusUpdateFacts.

Import ComplaintStatusService.

Implicit Types (env : Env) (s : Store) (statusData : StatusUpdateData).

Lemma external_ok env site s :
  faults env site = None → external env site s = (s, Ok tt).
Proof. intros H. unfold external. now rewrite H. Qed.

Lemma external_fault env site msg s :
  faults env site = Some msg → external env site s = (s, Throw (Error msg)).
Proof. intros H. unfold external. now rewrite H. Qed.

Lemma getDoc_ok env site id s :
  faults env site = None → getDoc env site id s = (s, Ok (complaints s !! id)).
Proof. intros H. unfold getDoc, bind. now rewrite (external_ok _ _ _ H). Qed.

Lemma getDoc_fault env site id msg s :
  faults env site = Some msg → getDoc env site id s = (s, Throw (Error msg)).
Proof. intros H. unfold getDoc, bind. now rewrite (external_fault _ _ _ _ H). Qed.

(** The keys of [updateFields] that every status update writes. *)
Lemma updateFields_status statusData :
  updateFields statusData !! "status"
  = Some (VStr (statusString (su_status statusData))).
Proof.
  unfold updateFields, assignField, spreadIf.
  destruct (su_status statusData), (su_notes statusData), (su_department statusData),
    (su_assignedTo statusData), (su_resolvedImageUrl statusData);
    simpl; repeat case_bool_decide; by simplify_map_eq.
Qed.

Lemma updateFields_resolved_image statusData X :
  su_status statusData = resolved →
  su_resolvedImageUrl statusData = Some X →
  updateFields statusData !! "resolvedImageBase64" = Some (VStr X).
Proof.
  intros Hst Himg. unfold updateFields, assignField. rewrite Hst, Himg.
  by simplify_map_eq.
Qed.

Lemma updateFields_notes statusData notes :
  su_notes statusData = Some notes →
  notes ≠ "" →
  updateFields statusData !! "lastUpdateNotes" = Some (VStr notes).
Proof.
  intros Hnotes Hne. unfold updateFields, assignField.
  destruct (su_status statusData), (su_resolvedImageUrl statusData);
    rewrite Hnotes; simpl; unfold spreadIf at 1;
    rewrite bool_decide_false by done; by simplify_map_eq.
Qed.

(** An update of an existing complaint whose read and write go through:
    the fields are merged, and the history entry is there unless its append
    failed. *)
Lemma updateComplaintStatus_existing env s complaintId doc statusData :
  complaints s !! complaintId = Some doc →
  faults env CS_getDoc = None →
  faults env CS_updateDoc = None →
  updateComplaintStatus env complaintId statusData s
  = (mkStore (<[complaintId := updateFields statusData ∪ doc]> (complaints s))
       (match faults env CS_addHistory with
        | None =>
            statusHistory s ++
              [ {| h_complaintId := complaintId;
                   h_previousStatus := orElse (doc !! "status") (VStr "submitted");
                   h_newStatus := su_status statusData;
                   h_updatedBy := su_updatedBy statusData;
                   h_updatedAt := su_updatedAt statusData;
                   h_notes := su_notes statusData |} ]
        | Some _ => statusHistory s
        end)
       (fcmTokens s) (notificationLogs s) (sentMessages s),
     Ok tt).
Proof.
  intros Hdoc Hread Hwrite.
  unfold updateComplaintStatus, tryCatch, bind.
  rewrite (getDoc_ok _ _ _ _ Hread), Hdoc.
  unfold updateDoc, bind. rewrite (external_ok _ _ _ Hwrite), Hdoc.
  unfold addStatusHistory, tryCatch, addHistoryDoc, bind, external.
  destruct (faults env CS_addHistory); reflexivity.
Qed.

Lemma updateComplaintStatus_missing env s complaintId statusData :
  complaints s !! complaintId = None →
  faults env CS_getDoc = None →
  updateComplaintStatus env complaintId statusData s
  = (s, Throw (Error ("Failed to update complaint status: Complaint "
                      +:+ complaintId +:+ " not found"))).
Proof.
  intros Hdoc Hread.
  unfold updateComplaintStatus, tryCatch, bind.
  now rewrite (getDoc_ok _ _ _ _ Hread), Hdoc.
Qed.

(** A status update touches the complaints and the history only. *)
Lemma updateComplaintStatus_frame env s complaintId statusData :
  let s' := (updateComplaintStatus env complaintId statusData s).1 in
  fcmTokens s' = fcmTokens s
  ∧ notificationLogs s' = notificationLogs s
  ∧ sentMessages s' = sentMessages s.
Proof.
  unfold updateComplaintStatus, addStatusHistory, addHistoryDoc, updateDoc, getDoc,
    tryCatch, bind, external, ret, throw.
  repeat case_match; simplify_eq/=; auto.
Qed.

End StatusUpdateFacts.

(** C4: updating the status of a complaint identifier that is not in the
    complaints collection fails with the "not found" error on both entry
    points, and leaves every collection and the messaging queue as they
    were: no document written, no history entry, no notification sent or
    logged. *)
Theorem update_of_missing_complaint_fails_unchanged
    (env : Env) (s : Store) (complaintId : string) (statusData : StatusUpdateData)
    (newStatus : ComplaintStatus) (updatedBy : string)
    (options : NotificationService.Options)
    (Hmissing : complaints s !! complaintId = None)
    (Hread : faults env CS_getDoc = None)
    (Hfetch : faults env NS_fetchCurrent = None) :
  ComplaintStatusService.updateComplaintStatus env complaintId statusData s
  = (s, Throw (Error ("Failed to update complaint status: Complaint "
                      +:+ complaintId +:+ " not found")))
  ∧ NotificationService.updateStatusAndNotify env complaintId newStatus updatedBy options s
    = (s, Throw (Error ("Complaint " +:+ complaintId +:+ " not found"))).
Proof.
  split.
  - by apply updateComplaintStatus_missing.
  - unfold NotificationService.updateStatusAndNotify, fetchUserComplaintById,
      tryCatch, bind.
    by rewrite (getDoc_ok _ _ _ _ Hfetch), Hmissing.
Qed.

(** C8: when the complaint exists, its document write succeeds and the
    append to the status history fails, [updateComplaintStatus] still
    completes normally: the complaint carries the new status and the history
    is as it was. *)
Theorem history_append_failure_is_not_propagated
    (env : Env) (s : Store) (complaintId : string) (statusData : StatusUpdateData)
    (doc : gmap string Value) (msg : string)
    (Hexists : complaints s !! complaintId = Some doc)
    (Hread : faults env CS_getDoc = None)
    (Hwrite : faults env CS_updateDoc = None)
    (Happend : faults env CS_addHistory = Some msg) :
  ∃ s' stored,
    ComplaintStatusService.updateComplaintStatus env complaintId statusData s = (s', Ok tt)
    ∧ complaints s' !! complaintId = Some stored
    ∧ stored !! "status" = Some (VStr (statusString (su_status statusData)))
    ∧ statusHistory s' = statusHistory s.
Proof.
  rewrite (updateComplaintStatus_existing _ _ _ _ _ Hexists Hread Hwrite), Happend.
  eexists _, _. split; [reflexivity|]. simpl.
  split; [apply lookup_insert_eq|]. split; [|reflexivity].
  apply lookup_union_Some_l, updateFields_status.
Qed.

(** C5: on an existing complaint, the update {status: "resolved", notes:
    "fixed", image: X} goes through, and the complaint read back has status
    "resolved", the notes "fixed" and the image X. *)
Theorem resolved_update_round_trip
    (env : Env) (s : Store) (complaintId : string) (statusData : StatusUpdateData)
    (doc : gmap string Value) (X : string)
    (Hexists : complaints s !! complaintId = Some doc)
    (Hread : faults env CS_getDoc = None)
    (Hwrite : faults env CS_updateDoc = None)
    (Hstatus : su_status statusData = resolved)
    (Hnotes : su_notes statusData = Some "fixed")
    (Himage : su_resolvedImageUrl statusData = Some X) :
  ∃ s' stored,
    ComplaintStatusService.updateComplaintStatus env complaintId statusData s = (s', Ok tt)
    ∧ getDoc env CS_getDoc complaintId s' = (s', Ok (Some stored))
    ∧ stored !! "status" = Some (VStr "resolved")
    ∧ stored !! "lastUpdateNotes" = Some (VStr "fixed")
    ∧ stored !! "resolvedImageBase64" = Some (VStr X).
Proof.
  rewrite (updateComplaintStatus_existing _ _ _ _ _ Hexists Hread Hwrite).
  eexists _, _. split; [reflexivity|].
  rewrite (getDoc_ok _ _ _ _ Hread). simpl. rewrite lookup_insert_eq.
  split; [reflexivity|].
  repeat split; apply lookup_union_Some_l.
  - by rewrite updateFields_status, Hstatus.
  - by apply updateFields_notes.
  - by apply updateFields_resolved_image.
Qed.

Lemma update_of_missing_complaint_fails_unchanged_witness :
  ComplaintStatusService.updateComplaintStatus calmEnv "ISS-0000" (resolvedUpdate "img")
    storeWithToken
  = (storeWithToken,
     Throw (Error ("Failed to update complaint status: Complaint "
                   +:+ "ISS-0000" +:+ " not found")))
  ∧ NotificationService.updateStatusAndNotify calmEnv "ISS-0000" in_progress "admin-1"
      (NotificationService.mkOptions None None None) storeWithToken
    = (storeWithToken, Throw (Error ("Complaint " +:+ "ISS-0000" +:+ " not found"))).
Proof.
  apply (update_of_missing_complaint_fails_unchanged calmEnv storeWithToken "ISS-0000");
    vm_compute; reflexivity.
Defined.

Lemma history_append_failure_is_not_propagated_witness :
  ∃ s' stored,
    ComplaintStatusService.updateComplaintStatus historyDownEnv "C1" (resolvedUpdate "img")
      storeWithToken = (s', Ok tt)
    ∧ complaints s' !! "C1" = Some stored
    ∧ stored !! "status" = Some (VStr (statusString (su_status (resolvedUpdate "img"))))
    ∧ statusHistory s' = statusHistory storeWithToken.
Proof.
  apply (history_append_failure_is_not_propagated historyDownEnv storeWithToken "C1"
           (resolvedUpdate "img") (complaintWithStatus "submitted") "permission-denied");
    vm_compute; reflexivity.
Defined.

Lemma resolved_update_round_trip_witness :
  ∃ s' stored,
    ComplaintStatusService.updateComplaintStatus calmEnv "C1"
      (resolvedUpdate "data:image/png;base64,AAAA") storeWithToken = (s', Ok tt)
    ∧ getDoc calmEnv CS_getDoc "C1" s' = (s', Ok (Some stored))
    ∧ stored !! "status" = Some (VStr "resolved")
    ∧ stored !! "lastUpdateNotes" = Some (VStr "fixed")
    ∧ stored !! "resolvedImageBase64" = Some (VStr "data:image/png;base64,AAAA").
Proof.
  apply (resolved_update_round_trip calmEnv storeWithToken "C1"
           (resolvedUpdate "data:image/png;base64,AAAA")
           (complaintWithStatus "submitted"));
    vm_compute; reflexivity.
Defined.

(** ** Notification dispatch *)

Section DispatchFacts.

Implicit Types (env : Env) (s : Store).

Lemma getTokenDoc_ok env site key s :
  faults env site = None → getTokenDoc env site key s = (s, Ok (fcmTokens s !! key)).
Proof. intros H. unfold getTokenDoc, bind. now rewrite (external_ok _ _ _ H). Qed.

(** With no usable token, [sendNotification] answers [false] and writes
    nothing. *)
Lemma sendNotification_no_token env s userId complaintId type payload :
  faults env FCM_getToken = None →
  tokenUnavailable s (jsString env userId +:+ "_web") →
  FCMService.sendNotification env userId complaintId type payload s = (s, Ok false).
Proof.
  intros Hread Htoken.
  unfold FCMService.sendNotification, tryCatch, bind.
  rewrite (getTokenDoc_ok _ _ _ _ Hread).
  unfold tokenUnavailable in Htoken.
  destruct (fcmTokens s !! _) as [tokenData|]; [|reflexivity].
  now rewrite Htoken.
Qed.

(** [sendNotification] never throws, adds at most one log entry, of the
    kind it was called with, and hands nothing to the messaging service. *)
Lemma sendNotification_effect env s userId complaintId type payload :
  ∃ added sent,
    FCMService.sendNotification env userId complaintId type payload s
    = (mkStore (complaints s) (statusHistory s) (fcmTokens s)
         (notificationLogs s ++ added) (sentMessages s), Ok sent)
    ∧ ∀ e, e ∈ added → l_type e = kindString type.
Proof.
  unfold FCMService.sendNotification, FCMService.logNotification, addLogDoc,
    getTokenDoc, tryCatch, bind, external, ret, throw.
  destruct s as [cs hs ts ls ms]; simpl.
  repeat case_match; simplify_eq/=;
    first [ eexists [], _; split; [by rewrite app_nil_r | set_solver]
          | eexists [_], _; split; [reflexivity | by intros e ->%list_elem_of_singleton] ].
Qed.

(** [triggerNotification] never throws; what it logs has the kind the
    [switch] gives to the new status. *)
Lemma triggerNotification_effect env s trigger :
  ∃ added,
    NotificationService.triggerNotification env trigger s
    = (mkStore (complaints s) (statusHistory s) (fcmTokens s)
         (notificationLogs s ++ added) (sentMessages s), Ok tt)
    ∧ ∀ e, e ∈ added →
        ∃ kind,
          NotificationService.notificationTypeOf (NotificationService.n_newStatus trigger)
          = Some kind
          ∧ l_type e = kindString kind.
Proof.
  assert (Hnone : ∀ (P : NotificationLog → Prop),
    (s, Ok tt) = (mkStore (complaints s) (statusHistory s) (fcmTokens s)
                    (notificationLogs s ++ []) (sentMessages s), @Ok unit tt)
    ∧ ∀ e, e ∈ [] → P e).
  { intros P. rewrite app_nil_r. destruct s. split; [reflexivity | set_solver]. }
  unfold NotificationService.triggerNotification, fetchUserComplaintById, getDoc,
    tryCatch, bind, external, ret, throw.
  destruct (faults env NS_fetchContent); [exists []; apply Hnone|].
  destruct (complaints s !! _) as [complaint|]; [|exists []; apply Hnone].
  destruct (NotificationService.notificationTypeOf _) as [kind|] eqn:Hkind;
    [|exists []; apply Hnone].
  destruct (sendNotification_effect env s (NotificationService.n_userId trigger)
              (NotificationService.n_complaintId trigger) kind
              (FCMService.generateNotificationContent env kind complaint))
    as (added & sent & -> & Hadded).
  exists added. split; [reflexivity|].
  intros e He. exists kind. split; [reflexivity | by apply Hadded].
Qed.

(** What [updateStatusAndNotify] adds to the notification log comes from
    its direct dispatch: the complaint was there, and the kind is the one
    of the requested status. *)
Lemma updateStatusAndNotify_logs env s complaintId newStatus updatedBy options :
  ∃ added,
    notificationLogs
      (NotificationService.updateStatusAndNotify env complaintId newStatus updatedBy
         options s).1
    = notificationLogs s ++ added
    ∧ ∀ e, e ∈ added →
        is_Some (complaints s !! complaintId)
        ∧ ∃ kind,
            NotificationService.notificationTypeOf newStatus = Some kind
            ∧ l_type e = kindString kind.
Proof.
  assert (Hnone : ∀ (P : NotificationLog → Prop),
    notificationLogs s = notificationLogs s ++ [] ∧ ∀ e, e ∈ [] → P e).
  { intros P. rewrite app_nil_r. split; [reflexivity | set_solver]. }
  unfold NotificationService.updateStatusAndNotify, fetchUserComplaintById, getDoc,
    tryCatch, bind, external, ret, throw.
  destruct (faults env NS_fetchCurrent); [exists []; apply Hnone|].
  destruct (complaints s !! complaintId) as [complaint|] eqn:Hdoc;
    [|exists []; apply Hnone].
  match goal with
  | |- context [ComplaintStatusService.updateComplaintStatus env complaintId ?sd s] =>
      pose proof (updateComplaintStatus_frame env s complaintId sd) as (_ & Hlogs & _);
      destruct (ComplaintStatusService.updateComplaintStatus env complaintId sd s)
        as [s1 [[]|err]]
  end; simpl in Hlogs.
  - match goal with
    | |- context [NotificationService.triggerNotification env ?tr s1] =>
        destruct (triggerNotification_effect env s1 tr) as (added & -> & Hadded)
    end.
    exists added. simpl. rewrite Hlogs. split; [reflexivity|].
    intros e He. split; [by eexists | by apply Hadded].
  - exists []. simpl. rewrite Hlogs. apply Hnone.
Qed.

(** What [onComplaintStatusChange] adds to the notification log: at most one
    entry, for a write that left a document, of the kind chosen by
    [notificationTypeOf]. *)
Lemma onComplaintStatusChange_logs env s before after complaintId :
  ∃ added,
    notificationLogs (Functions.onComplaintStatusChange env before after complaintId s).1
    = notificationLogs s ++ added
    ∧ ∀ e, e ∈ added →
        ∃ newData kind,
          after = Some newData
          ∧ Functions.notificationTypeOf before newData = Some kind
          ∧ l_type e = kindString kind.
Proof.
  unfold Functions.onComplaintStatusChange, messagingSend, addLogDoc, getTokenDoc,
    tryCatch, bind, external, ret, throw.
  destruct after as [newData|]; simpl;
    [|exists []; rewrite app_nil_r; split; [reflexivity | set_solver]].
  destruct (Functions.notificationTypeOf before newData) as [kind|] eqn:Hkind;
    repeat case_match; simplify_eq/=;
    first [ exists []; rewrite app_nil_r; split; [reflexivity | set_solver]
          | eexists [_]; split;
            [ reflexivity
            | intros e ->%list_elem_of_singleton; by exists newData, kind ] ].
Qed.

End DispatchFacts.

Section NoTokenFacts.

Implicit Types (env : Env) (s : Store).

Lemma triggerNotification_no_token env s trigger :
  faults env FCM_getToken = None →
  tokenUnavailable s (jsString env (NotificationService.n_userId trigger) +:+ "_web") →
  NotificationService.triggerNotification env trigger s = (s, Ok tt).
Proof.
  intros Hread Htoken.
  unfold NotificationService.triggerNotification, fetchUserComplaintById, getDoc,
    tryCatch, bind, external, ret, throw.
  destruct (faults env NS_fetchContent); [reflexivity|].
  destruct (complaints s !! _) as [complaint|]; [|reflexivity].
  destruct (NotificationService.notificationTypeOf _) as [kind|]; [|reflexivity].
  now rewrite (sendNotification_no_token _ _ _ _ _ _ Hread Htoken).
Qed.

Lemma onComplaintStatusChange_no_token env s before newData complaintId :
  faults env TR_getToken = None →
  tokenUnavailable s (jsString env (newData !! "userId") +:+ "_web") →
  Functions.onComplaintStatusChange env before (Some newData) complaintId s
  = (s, Ok None).
Proof.
  intros Hread Htoken.
  unfold Functions.onComplaintStatusChange, tryCatch, bind, ret.
  destruct (negb (truthy _)); [reflexivity|].
  destruct (Functions.notificationTypeOf before newData) as [kind|]; [|reflexivity].
  rewrite (getTokenDoc_ok _ _ _ _ Hread).
  unfold tokenUnavailable in Htoken.
  destruct (fcmTokens s !! _) as [tokenData|]; [|reflexivity].
  now rewrite Htoken.
Qed.

End NoTokenFacts.

(** C7: when the submitter's Device Token Record is absent or inactive, a
    dispatch is a no-op and not a failure.  [FCMService.sendNotification]
    answers [false] and the Trigger Handler answers [null], both leaving the
    notification log and the messaging queue untouched; and the status
    update behind the dispatch, [updateStatusAndNotify], completes normally
    with nothing logged and nothing sent. *)
Theorem dispatch_without_active_token_is_noop
    (env : Env) (s : Store) (userId : option Value) (complaintId : string)
    (type : NotificationKind) (payload : NotificationPayload)
    (before : option (gmap string Value)) (newData doc : gmap string Value)
    (newStatus : ComplaintStatus) (updatedBy : string)
    (options : NotificationService.Options)
    (Htoken : tokenUnavailable s (jsString env userId +:+ "_web"))
    (HreadClient : faults env FCM_getToken = None)
    (HreadTrigger : faults env TR_getToken = None)
    (Hsubmitter : newData !! "userId" = userId)
    (Hexists : complaints s !! complaintId = Some doc)
    (Howner : doc !! "userId" = userId)
    (Hfetch : faults env NS_fetchCurrent = None)
    (Hread : faults env CS_getDoc = None)
    (Hwrite : faults env CS_updateDoc = None) :
  FCMService.sendNotification env userId complaintId type payload s = (s, Ok false)
  ∧ Functions.onComplaintStatusChange env before (Some newData) complaintId s
    = (s, Ok None)
  ∧ ∃ s',
      NotificationService.updateStatusAndNotify env complaintId newStatus updatedBy
        options s = (s', Ok tt)
      ∧ notificationLogs s' = notificationLogs s
      ∧ sentMessages s' = sentMessages s.
Proof.
  split; [by apply sendNotification_no_token|].
  split; [apply onComplaintStatusChange_no_token; by rewrite ?Hsubmitter|].
  unfold NotificationService.updateStatusAndNotify, fetchUserComplaintById,
    tryCatch, bind.
  rewrite (getDoc_ok _ _ _ _ Hfetch), Hexists.
  rewrite (updateComplaintStatus_existing _ _ _ _ _ Hexists Hread Hwrite).
  rewrite triggerNotification_no_token; [|done|simpl; by rewrite Howner].
  by eexists.
Qed.

Lemma dispatch_without_active_token_is_noop_witness :
  FCMService.sendNotification calmEnv (Some (VStr "u1")) "C1" acknowledgment
    (FCMService.generateNotificationContent calmEnv acknowledgment
       (complaintWithStatus "in-progress")) storeInactiveToken
  = (storeInactiveToken, Ok false)
  ∧ Functions.onComplaintStatusChange calmEnv (Some (complaintWithStatus "submitted"))
      (Some (complaintWithStatus "in-progress")) "C1" storeInactiveToken
    = (storeInactiveToken, Ok None)
  ∧ ∃ s',
      NotificationService.updateStatusAndNotify calmEnv "C1" in_progress "admin-1"
        (NotificationService.mkOptions None (Some "Public Works") None)
        storeInactiveToken = (s', Ok tt)
      ∧ notificationLogs s' = notificationLogs storeInactiveToken
      ∧ sentMessages s' = sentMessages storeInactiveToken.
Proof.
  apply (dispatch_without_active_token_is_noop calmEnv storeInactiveToken
           (Some (VStr "u1")) "C1" acknowledgment _
           (Some (complaintWithStatus "submitted"))
           (complaintWithStatus "in-progress") (complaintWithStatus "submitted"));
    vm_compute; reflexivity.
Defined.

Section KindFacts.

(** The choice of the Trigger Handler, read as a rule. *)
Lemma trigger_notificationTypeOf_rule before newData kind :
  Functions.notificationTypeOf before newData = Some kind →
  triggerKindRule kind before newData.
Proof.
  unfold Functions.notificationTypeOf, triggerKindRule.
  destruct before as [old|]; [|by intros [= <-]].
  repeat case_bool_decide; intros [= <-]; by exists old.
Qed.

(** The [switch] of the direct dispatch, read as a rule. *)
Lemma orchestrator_notificationTypeOf_rule newStatus kind :
  NotificationService.notificationTypeOf newStatus = Some kind →
  orchestratorKindRule kind newStatus.
Proof. destruct newStatus; intros [= <-]; reflexivity. Qed.

End KindFacts.

(** C3, as stated, fails on both paths.  The Trigger Handler answers a
    complaint document created with status "resolved" with a log entry of
    kind "confirmation", which the stated pairing reserves for "submitted";
    and the Orchestrator's direct dispatch logs a "confirmation" for a
    complaint whose document was already there. *)
Lemma confirmation_pairing_counterexample :
  (∃ e,
     notificationLogs
       (Functions.onComplaintStatusChange calmEnv None
          (Some (complaintWithStatus "resolved")) "C1" storeWithToken).1
     = notificationLogs storeWithToken ++ [e]
     ∧ l_type e = "confirmation"
     ∧ ¬ kindPairsWithTransition (l_type e) None
           (complaintWithStatus "resolved" !! "status"))
  ∧ (∃ e,
       notificationLogs
         (NotificationService.updateStatusAndNotify calmEnv "C1" submitted "system"
            (NotificationService.mkOptions None None
               (Some "Complaint submitted successfully"))
            storeWithToken).1
       = notificationLogs storeWithToken ++ [e]
       ∧ l_type e = "confirmation"
       ∧ ¬ kindPairsWithTransition (l_type e) (complaints storeWithToken !! "C1")
             (Some (VStr (statusString submitted)))).
Proof.
  split.
  - eexists. split; [vm_compute; reflexivity|]. split; [reflexivity|].
    intros (Hconf & _). destruct (Hconf eq_refl) as [_ Hst].
    vm_compute in Hst. discriminate Hst.
  - eexists. split; [vm_compute; reflexivity|]. split; [reflexivity|].
    intros (Hconf & _). destruct (Hconf eq_refl) as [Hprior _].
    vm_compute in Hprior. discriminate Hprior.
Qed.

(** C3 (amended): every Notification Log Entry created by a dispatch path
    has a kind fixed by the triggering write.  On the Trigger Handler, kind
    "confirmation" occurs only for a write with no prior document (whatever
    its status), "acknowledgment" only for a change of status into
    "in-progress" and "resolution" only for a change of status into
    "resolved", both of an existing document.  On the Orchestrator's direct
    dispatch the complaint document exists already, and kind "confirmation"
    occurs only for the requested status "submitted", "acknowledgment" only
    for "in-progress" and "resolution" only for "resolved". *)
Theorem log_entry_kind_follows_dispatch_rule
    (env : Env) (s : Store) (before after : option (gmap string Value))
    (complaintId : string) (newStatus : ComplaintStatus) (updatedBy : string)
    (options : NotificationService.Options) :
  (∃ added,
     notificationLogs (Functions.onComplaintStatusChange env before after complaintId s).1
     = notificationLogs s ++ added
     ∧ ∀ e, e ∈ added →
         ∃ newData kind,
           after = Some newData
           ∧ l_type e = kindString kind
           ∧ triggerKindRule kind before newData)
  ∧ (∃ added,
       notificationLogs
         (NotificationService.updateStatusAndNotify env complaintId newStatus updatedBy
            options s).1
       = notificationLogs s ++ added
       ∧ ∀ e, e ∈ added →
           is_Some (complaints s !! complaintId)
           ∧ ∃ kind, l_type e = kindString kind ∧ orchestratorKindRule kind newStatus).
Proof.
  split.
  - destruct (onComplaintStatusChange_logs env s before after complaintId)
      as (added & Hlogs & Hadded).
    exists added. split; [exact Hlogs|].
    intros e He. destruct (Hadded e He) as (newData & kind & Hafter & Hkind & Htype).
    exists newData, kind. repeat split; try done.
    by apply trigger_notificationTypeOf_rule.
  - destruct (updateStatusAndNotify_logs env s complaintId newStatus updatedBy options)
      as (added & Hlogs & Hadded).
    exists added. split; [exact Hlogs|].
    intros e He. destruct (Hadded e He) as (Hdoc & kind & Hkind & Htype).
    split; [exact Hdoc|]. exists kind. split; [exact Htype|].
    by apply orchestrator_notificationTypeOf_rule.
Qed.

Lemma log_entry_kind_follows_dispatch_rule_witness :
  (∃ added,
     notificationLogs
       (Functions.onComplaintStatusChange calmEnv None
          (Some (complaintWithStatus "resolved")) "C1" storeWithToken).1
     = notificationLogs storeWithToken ++ added
     ∧ ∀ e, e ∈ added →
         ∃ newData kind,
           Some (complaintWithStatus "resolved") = Some newData
           ∧ l_type e = kindString kind
           ∧ triggerKindRule kind None newData)
  ∧ (∃ added,
       notificationLogs
         (NotificationService.updateStatusAndNotify calmEnv "C1" in_progress "admin-1"
            (NotificationService.mkOptions None None None) storeWithToken).1
       = notificationLogs storeWithToken ++ added
       ∧ ∀ e, e ∈ added →
           is_Some (complaints storeWithToken !! "C1")
           ∧ ∃ kind, l_type e = kindString kind ∧ orchestratorKindRule kind in_progress).
Proof.
  exact (log_entry_kind_follows_dispatch_rule calmEnv storeWithToken None
           (Some (complaintWithStatus "resolved")) "C1" in_progress "admin-1"
           (NotificationService.mkOptions None None None)).
Defined.

(** C9, as stated, fails: with an active token and a notification log that
    refuses the write, [sendNotification] returns [true] although no entry
    was appended. *)
Lemma sendNotification_true_without_entry_counterexample :
  let outcome :=
    FCMService.sendNotification logDownEnv (Some (VStr "u1")) "C1" acknowledgment
      (FCMService.generateNotificationContent logDownEnv acknowledgment
         (complaintWithStatus "in-progress")) storeWithToken in
  outcome.2 = Ok true
  ∧ notificationLogs outcome.1 = notificationLogs storeWithToken.
Proof. split; vm_compute; reflexivity. Qed.

(** C9 (amended): [sendNotification] never throws and changes nothing but
    the notification log.  When the token read succeeds and the record is
    absent or inactive it returns [false] and appends nothing.  When the
    record is active it returns [true], having appended one entry with
    status "sent" of the kind it was called with, unless the log write
    itself failed, in which case nothing is appended.  When the token read
    throws it returns [false], having appended one entry with status
    "failed", unless the log write itself failed, in which case nothing is
    appended. *)
Theorem sendNotification_never_throws_and_logs
    (env : Env) (s : Store) (userId : option Value) (complaintId : string)
    (type : NotificationKind) (payload : NotificationPayload) :
  ∃ added sent,
    FCMService.sendNotification env userId complaintId type payload s
    = (mkStore (complaints s) (statusHistory s) (fcmTokens s)
         (notificationLogs s ++ added) (sentMessages s), Ok sent)
    ∧ match faults env FCM_getToken with
      | None =>
          match fcmTokens s !! (jsString env userId +:+ "_web") with
          | Some tokenData =>
              if t_isActive tokenData then
                sent = true
                ∧ match faults env FCM_logSent with
                  | None => ∃ e, added = [e] ∧ l_status e = "sent"
                                 ∧ l_type e = kindString type
                  | Some _ => added = []
                  end
              else sent = false ∧ added = []
          | None => sent = false ∧ added = []
          end
      | Some _ =>
          sent = false
          ∧ match faults env FCM_logFailed with
            | None => ∃ e, added = [e] ∧ l_status e = "failed"
                           ∧ l_type e = kindString type
            | Some _ => added = []
            end
      end.
Proof.
  unfold FCMService.sendNotification, FCMService.logNotification, addLogDoc,
    getTokenDoc, tryCatch, bind, external, ret, throw.
  destruct s as [cs hs ts ls ms]; simpl.
  destruct (faults env FCM_getToken) as [readError|]; simpl.
  - destruct (faults env FCM_logFailed); simpl.
    + exists [], false. by rewrite app_nil_r.
    + eexists [_], false. split; [reflexivity|]. split; [reflexivity|]. by eexists.
  - destruct (ts !! _) as [tokenData|]; simpl.
    + destruct (t_isActive tokenData); simpl.
      * destruct (faults env FCM_logSent); simpl.
        -- exists [], true. by rewrite app_nil_r.
        -- eexists [_], true. split; [reflexivity|]. split; [reflexivity|]. by eexists.
      * exists [], false. by rewrite app_nil_r.
    + exists [], false. by rewrite app_nil_r.
Qed.

(** C10: a write whose after-image is absent, or whose document has no
    [userId] field, makes the Trigger Handler return [null] with nothing
    sent and nothing logged: the store is as it was. *)
Theorem trigger_ignores_deleted_and_ownerless
    (env : Env) (s : Store) (before : option (gmap string Value))
    (newData : gmap string Value) (complaintId : string)
    (Hownerless : newData !! "userId" = None) :
  Functions.onComplaintStatusChange env before None complaintId s = (s, Ok None)
  ∧ Functions.onComplaintStatusChange env before (Some newData) complaintId s
    = (s, Ok None).
Proof.
  split; [reflexivity|].
  unfold Functions.onComplaintStatusChange, tryCatch, ret.
  by rewrite Hownerless.
Qed.

Lemma trigger_ignores_deleted_and_ownerless_witness :
  Functions.onComplaintStatusChange calmEnv (Some (complaintWithStatus "submitted")) None
    "C1" storeWithToken = (storeWithToken, Ok None)
  ∧ Functions.onComplaintStatusChange calmEnv (Some (complaintWithStatus "submitted"))
      (Some (<["status" := VStr "in-progress"]> ∅)) "C1" storeWithToken
    = (storeWithToken, Ok None).
Proof.
  apply (trigger_ignores_deleted_and_ownerless calmEnv storeWithToken
           (Some (complaintWithStatus "submitted"))
           (<["status" := VStr "in-progress"]> ∅) "C1").
  vm_compute; reflexivity.
Defined.

(** ** The callable custom-notification endpoint *)

Section CustomNotificationFacts.

Implicit Types (env : Env) (s : Store) (data : Functions.CustomData).

Lemma sendCustomNotification_unauthenticated env s data :
  Functions.sendCustomNotification env None data s
  = (s, Throw (HttpsError unauthenticated "User must be authenticated")).
Proof. reflexivity. Qed.

Lemma sendCustomNotification_invalid_argument env s uid data :
  requiredPresent data = false →
  Functions.sendCustomNotification env (Some uid) data s
  = (s, Throw (HttpsError invalid_argument "Missing required fields")).
Proof.
  unfold requiredPresent, Functions.sendCustomNotification. intros Hmissing.
  destruct (truthyStr (Functions.d_userId data)),
    (truthyStr (Functions.d_complaintId data)),
    (truthyStr (Functions.d_title data)),
    (truthyStr (Functions.d_body data)); try discriminate; reflexivity.
Qed.

(** Past the two guards every error comes out as [internal]: the lookup
    errors too, which are thrown inside the [try] block. *)
Lemma sendCustomNotification_guarded_outcome env s uid data :
  requiredPresent data = true →
  ∃ s' outcome,
    Functions.sendCustomNotification env (Some uid) data s = (s', outcome)
    ∧ match outcome with
      | Ok result =>
          Functions.success result = true
          ∧ Functions.r_messageId result = messageId env
      | Throw e => ∃ msg, e = HttpsError internal msg
      end.
Proof.
  unfold requiredPresent, Functions.sendCustomNotification. intros Hpresent.
  destruct (truthyStr (Functions.d_userId data)),
    (truthyStr (Functions.d_complaintId data)),
    (truthyStr (Functions.d_title data)),
    (truthyStr (Functions.d_body data)); try discriminate; simpl.
  unfold messagingSend, addLogDoc, getTokenDoc, tryCatch, bind, external, ret, throw.
  repeat case_match; simplify_eq/=; eexists _, _; (split; [reflexivity|]); simpl; eauto.
Qed.

Lemma sendCustomNotification_success env s uid data tokenData :
  requiredPresent data = true →
  faults env CN_getToken = None →
  faults env CN_send = None →
  faults env CN_logSent = None →
  fcmTokens s !! (default "" (Functions.d_userId data) +:+ "_web") = Some tokenData →
  t_isActive tokenData = true →
  ∃ s',
    Functions.sendCustomNotification env (Some uid) data s
    = (s', Ok {| Functions.success := true; Functions.r_messageId := messageId env |}).
Proof.
  unfold requiredPresent, Functions.sendCustomNotification.
  intros Hpresent Hget Hsend Hlog Htoken Hactive.
  destruct (truthyStr (Functions.d_userId data)),
    (truthyStr (Functions.d_complaintId data)),
    (truthyStr (Functions.d_title data)),
    (truthyStr (Functions.d_body data)); try discriminate; simpl.
  unfold messagingSend, addLogDoc, tryCatch, bind.
  rewrite (getTokenDoc_ok _ _ _ _ Hget), Htoken, Hactive; simpl.
  rewrite (external_ok _ _ _ Hsend), (external_ok _ _ _ Hlog).
  by eexists.
Qed.

End CustomNotificationFacts.

(** C2 on the code: for an authenticated call with all four fields, a
    target user without a token record and a target user with an inactive
    one are both answered with kind [internal], not [not-found] and
    [failed-precondition]: the [catch] of the endpoint rewraps the two
    errors thrown in its [try] block. *)
Theorem sendCustomNotification_lookup_errors_become_internal :
  Functions.sendCustomNotification calmEnv (Some "admin-1")
    (Functions.mkCustomData (Some "u2") (Some "C1") (Some "Update") (Some "Please check") None)
    storeWithToken
  = (storeWithToken, Throw (HttpsError internal "FCM token not found for user"))
  ∧ Functions.sendCustomNotification calmEnv (Some "admin-1")
      (Functions.mkCustomData (Some "u1") (Some "C1") (Some "Update") (Some "Please check") None)
      storeInactiveToken
    = (storeInactiveToken, Throw (HttpsError internal "FCM token is inactive")).
Proof. split; vm_compute; reflexivity. Qed.

(** * Further properties of the services *)

(** ** SLA display and escalation *)

Section SLADisplayFacts.

Import SLA.

Lemma seconds_left_lt_iff (e k : Z) :
  (SLA_SECONDS - inject_Z e / 1000 < inject_Z k)%Q ↔ (48 - k) * 1000 < e.
Proof.
  unfold SLA_SECONDS, Qlt, Qminus, Qplus, Qopp, Qdiv, Qmult, Qinv, inject_Z; simpl; lia.
Qed.

(** [Math.max(0, x) < k] for a positive [k]. *)
Lemma js_lt_max0 (x : Q) (k : Z) :
  0 < k →
  js_lt (Num (Qmax 0 x)) (inject_Z k) = true ↔ (x < inject_Z k)%Q.
Proof.
  intros Hk. unfold js_lt.
  rewrite negb_true_iff, <- not_true_iff_false, Qle_bool_iff.
  split.
  - intros Hn. apply Qnot_le_lt. intros Hle. apply Hn.
    eapply Qle_trans; [exact Hle | apply Q.le_max_r].
  - intros Hlt Hle.
    assert (Hmax : (Qmax 0 x < inject_Z k)%Q).
    { apply Q.max_lub_lt; [|exact Hlt]. unfold Qlt, inject_Z; simpl; lia. }
    exact (Qlt_not_le _ _ Hmax Hle).
Qed.

(** Whole seconds left, rounded up, before the deadline. *)
Lemma ceiling_seconds_left (e : Z) :
  e ≤ 48000 →
  Qceiling (Qmax 0 (SLA_SECONDS - inject_Z e / 1000)) = (48999 - e) / 1000.
Proof.
  intros He.
  assert (Hpos : (0 <= SLA_SECONDS - inject_Z e / 1000)%Q).
  { unfold SLA_SECONDS, Qle, Qminus, Qplus, Qopp, Qdiv, Qmult, Qinv, inject_Z;
      simpl; lia. }
  rewrite (Qceiling_comp _ ((48000 - e) # 1000)).
  - unfold Qceiling, Qfloor, Qopp; simpl.
    pose proof (Z.div_mod (- (48000 - e)) 1000 ltac:(lia)).
    pose proof (Z.mod_pos_bound (- (48000 - e)) 1000 ltac:(lia)).
    pose proof (Z.div_mod (48999 - e) 1000 ltac:(lia)).
    pose proof (Z.mod_pos_bound (48999 - e) 1000 ltac:(lia)).
    nia.
  - rewrite (Q.max_r _ _ Hpos).
    unfold SLA_SECONDS, Qeq, Qminus, Qplus, Qopp, Qdiv, Qmult, Qinv, inject_Z;
      simpl; lia.
Qed.

End SLADisplayFacts.

(** X1: for a complaint with a valid creation time whose status is not
    "Resolved", the SLA badge is a function of the elapsed milliseconds
    alone: "Breached" (red) past 48000; before that "<n>s left" with [n] the
    remaining seconds rounded up, red past 36000, yellow past 24000 and
    green up to 24000. *)
Theorem getSLAStatusDisplay_by_elapsed_time
    (now created : Z) (c : SLA.Complaint)
    (Hstatus : SLA.status c ≠ Some "Resolved")
    (Hcreated : SLA.createdAt c = Some created) :
  SLA.getSLAStatusDisplay now c =
  if 48000 <? now - created then
    {| SLA.text := "Breached"; SLA.colorClass := "bg-red-100 text-red-800" |}
  else
    {| SLA.text := pretty ((48999 - (now - created)) / 1000) +:+ "s left";
       SLA.colorClass :=
         if 36000 <? now - created then "bg-red-100 text-red-800"
         else if 24000 <? now - created then "bg-yellow-100 text-yellow-800"
         else "bg-green-100 text-green-800" |}.
Proof.
  unfold SLA.getSLAStatusDisplay.
  rewrite bool_decide_false by exact Hstatus.
  destruct (Z.ltb_spec 48000 (now - created)) as [Hover|Hunder].
  - assert (Hb : SLA.isSLABreached now c = true).
    { apply isSLABreached_elapsed. by exists created. }
    by rewrite Hb.
  - assert (Hb : SLA.isSLABreached now c = false).
    { apply not_true_iff_false. rewrite isSLABreached_elapsed.
      intros (t & Ht & Hlt). rewrite Hcreated in Ht. injection Ht as <-. lia. }
    rewrite Hb, (getSecondsUntilDeadline_created _ _ _ Hcreated).
    unfold SLA.ceilString. rewrite (ceiling_seconds_left _ Hunder).
    destruct (Z.ltb_spec 36000 (now - created)) as [H36|H36].
    + assert (Hlt : SLA.js_lt (SLA.Num (Qmax 0 (SLA.SLA_SECONDS
                      - inject_Z (now - created) / 1000))) 12 = true).
      { change 12%Q with (inject_Z 12). apply js_lt_max0; [lia|].
        apply seconds_left_lt_iff. lia. }
      by rewrite Hlt.
    + assert (Hlt : SLA.js_lt (SLA.Num (Qmax 0 (SLA.SLA_SECONDS
                      - inject_Z (now - created) / 1000))) 12 = false).
      { apply not_true_iff_false. change 12%Q with (inject_Z 12).
        rewrite js_lt_max0 by lia. rewrite seconds_left_lt_iff. lia. }
      rewrite Hlt.
      destruct (Z.ltb_spec 24000 (now - created)) as [H24|H24].
      * assert (Hlt' : SLA.js_lt (SLA.Num (Qmax 0 (SLA.SLA_SECONDS
                        - inject_Z (now - created) / 1000))) 24 = true).
        { change 24%Q with (inject_Z 24). apply js_lt_max0; [lia|].
          apply seconds_left_lt_iff. lia. }
        by rewrite Hlt'.
      * assert (Hlt' : SLA.js_lt (SLA.Num (Qmax 0 (SLA.SLA_SECONDS
                        - inject_Z (now - created) / 1000))) 24 = false).
        { apply not_true_iff_false. change 24%Q with (inject_Z 24).
          rewrite js_lt_max0 by lia. rewrite seconds_left_lt_iff. lia. }
        by rewrite Hlt'.
Qed.

Lemma getSLAStatusDisplay_by_elapsed_time_witness :
  SLA.getSLAStatusDisplay 40500 (SLA.mkComplaint (Some "in-progress") (Some 0)) =
  if 48000 <? 40500 - 0 then
    {| SLA.text := "Breached"; SLA.colorClass := "bg-red-100 text-red-800" |}
  else
    {| SLA.text := pretty ((48999 - (40500 - 0)) / 1000) +:+ "s left";
       SLA.colorClass :=
         if 36000 <? 40500 - 0 then "bg-red-100 text-red-800"
         else if 24000 <? 40500 - 0 then "bg-yellow-100 text-yellow-800"
         else "bg-green-100 text-green-800" |}.
Proof.
  apply (getSLAStatusDisplay_by_elapsed_time 40500 0
           (SLA.mkComplaint (Some "in-progress") (Some 0))).
  - simpl. discriminate.
  - reflexivity.
Defined.

(** X2: the statuses that the status service writes are lower-case, and
    the "Resolved" gate of the SLA service does not recognise any of them:
    a complaint whose status was written by [updateComplaintStatus], be it
    "resolved", still shows "Breached" and is still picked for escalation
    once more than 48 seconds have passed since its creation. *)
Theorem written_status_never_passes_Resolved_gate
    (now created : Z) (st : ComplaintStatus) (c : SLA.Complaint)
    (Hstatus : SLA.status c = Some (statusString st))
    (Hcreated : SLA.createdAt c = Some created)
    (Hold : 48000 < now - created) :
  SLA.getSLAStatusDisplay now c
  = {| SLA.text := "Breached"; SLA.colorClass := "bg-red-100 text-red-800" |}
  ∧ SLA.needsEscalation now false c = true.
Proof.
  assert (Hgate : SLA.status c ≠ Some "Resolved").
  { rewrite Hstatus. by destruct st. }
  assert (Hbreached : SLA.isSLABreached now c = true).
  { apply isSLABreached_elapsed. by exists created. }
  split.
  - unfold SLA.getSLAStatusDisplay.
    by rewrite bool_decide_false, Hbreached.
  - unfold SLA.needsEscalation.
    by rewrite Hbreached, bool_decide_false.
Qed.

Lemma written_status_never_passes_Resolved_gate_witness :
  SLA.getSLAStatusDisplay 60000 (SLA.mkComplaint (Some (statusString resolved)) (Some 0))
  = {| SLA.text := "Breached"; SLA.colorClass := "bg-red-100 text-red-800" |}
  ∧ SLA.needsEscalation 60000 false
      (SLA.mkComplaint (Some (statusString resolved)) (Some 0)) = true.
Proof.
  apply (written_status_never_passes_Resolved_gate 60000 0 resolved
           (SLA.mkComplaint (Some (statusString resolved)) (Some 0)));
    [reflexivity | reflexivity | lia].
Defined.

(** X3: a complaint whose creation date does not parse is never breached
    and never escalated, and unless its status is "Resolved" its badge reads
    "NaNs left" in green. *)
Theorem invalid_creation_date_is_never_breached
    (now : Z) (escalated : bool) (c : SLA.Complaint)
    (Hinvalid : SLA.createdAt c = None) :
  SLA.isSLABreached now c = false
  ∧ SLA.needsEscalation now escalated c = false
  ∧ SLA.getSecondsUntilDeadline now c = SLA.NaN
  ∧ (SLA.status c ≠ Some "Resolved" →
     SLA.getSLAStatusDisplay now c
     = {| SLA.text := "NaNs left"; SLA.colorClass := "bg-green-100 text-green-800" |}).
Proof.
  assert (Hb : SLA.isSLABreached now c = false).
  { unfold SLA.isSLABreached, SLA.secondsSinceCreated. by rewrite Hinvalid. }
  assert (Hs : SLA.getSecondsUntilDeadline now c = SLA.NaN).
  { unfold SLA.getSecondsUntilDeadline, SLA.secondsSinceCreated. by rewrite Hinvalid. }
  repeat split; try done.
  - unfold SLA.needsEscalation. by rewrite Hb.
  - intros Hstatus. unfold SLA.getSLAStatusDisplay.
    by rewrite bool_decide_false, Hb, Hs.
Qed.

Lemma invalid_creation_date_is_never_breached_witness :
  SLA.isSLABreached 60000 (SLA.mkComplaint (Some "submitted") None) = false
  ∧ SLA.needsEscalation 60000 false (SLA.mkComplaint (Some "submitted") None) = false
  ∧ SLA.getSecondsUntilDeadline 60000 (SLA.mkComplaint (Some "submitted") None) = SLA.NaN
  ∧ (SLA.status (SLA.mkComplaint (Some "submitted") None) ≠ Some "Resolved" →
     SLA.getSLAStatusDisplay 60000 (SLA.mkComplaint (Some "submitted") None)
     = {| SLA.text := "NaNs left"; SLA.colorClass := "bg-green-100 text-green-800" |}).
Proof.
  apply (invalid_creation_date_is_never_breached 60000 false
           (SLA.mkComplaint (Some "submitted") None)).
  reflexivity.
Defined.

Section EscalationFacts.

Import SLA.

Lemma breachedUnescalated_marked (now : Z) (c : Escalation) :
  breachedUnescalated now (mkEscalation (e_complaint c) true) = false.
Proof. unfold breachedUnescalated, needsEscalation; simpl. apply andb_false_r. Qed.

Lemma breachedUnescalated_true (now : Z) (e : Escalation) :
  breachedUnescalated now e = true ↔
  isSLABreached now (e_complaint e) = true
  ∧ status (e_complaint e) ≠ Some "Resolved"
  ∧ escalatedToHigherAuthority e = false.
Proof.
  unfold breachedUnescalated, needsEscalation.
  rewrite !andb_true_iff, !negb_true_iff, bool_decide_eq_false. tauto.
Qed.

End EscalationFacts.

(** X4: [checkAndNotifyBreaches] notifies exactly the complaints that are
    breached, not "Resolved" and not yet escalated, and no other; it leaves
    the complaints themselves as they were, and an escalation flag is set
    afterwards exactly when it was set before or the complaint has just been
    notified. *)
Theorem checkAndNotifyBreaches_notifies_only_due
    (now : Z) (complaints : list SLA.Escalation) :
  let outcome := SLA.checkAndNotifyBreaches now complaints in
  (∀ c, c ∈ outcome.1 ↔
        ∃ e, e ∈ complaints ∧ SLA.e_complaint e = c
             ∧ SLA.isSLABreached now c = true
             ∧ SLA.status c ≠ Some "Resolved"
             ∧ SLA.escalatedToHigherAuthority e = false)
  ∧ SLA.e_complaint <$> outcome.2 = SLA.e_complaint <$> complaints
  ∧ ∀ i e e', complaints !! i = Some e → outcome.2 !! i = Some e' →
      (SLA.escalatedToHigherAuthority e' = true ↔
         SLA.escalatedToHigherAuthority e = true
         ∨ SLA.breachedUnescalated now e = true).
Proof.
  simpl. split; [|split].
  - intros c. rewrite list_elem_of_fmap. split.
    + intros (e & -> & [Hdue He]%list_elem_of_filter).
      exists e. apply breachedUnescalated_true in Hdue.
      destruct Hdue as (Hb & Hs & Hf). done.
    + intros (e & He & <- & Hb & Hs & Hf). exists e. split; [done|].
      apply list_elem_of_filter. split; [|done].
      apply breachedUnescalated_true. done.
  - rewrite <- list_fmap_compose. apply list_fmap_ext.
    intros i e _. simpl. by destruct (SLA.breachedUnescalated now e).
  - intros i e e' He. rewrite list_lookup_fmap, He. simpl. intros [= <-].
    destruct (SLA.breachedUnescalated now e) eqn:Hdue; simpl.
    + split; [by right | done].
    + split; [by left | by intros [?|?]].
Qed.

(** X5: escalation is not repeated.  A second pass over the array left by
    a first pass notifies only the complaints that are due at the second
    clock reading and were not due at the first; at the same clock reading
    it notifies none and changes nothing. *)
Theorem checkAndNotifyBreaches_does_not_repeat
    (now now' : Z) (complaints : list SLA.Escalation) :
  let first := SLA.checkAndNotifyBreaches now complaints in
  (SLA.checkAndNotifyBreaches now' first.2).1
  = SLA.e_complaint <$>
      filter (λ e, SLA.breachedUnescalated now' e = true
                   ∧ SLA.breachedUnescalated now e = false) complaints
  ∧ SLA.checkAndNotifyBreaches now first.2 = ([], first.2).
Proof.
  simpl. unfold SLA.checkAndNotifyBreaches. simpl.
  assert (Hsecond : ∀ t,
    SLA.e_complaint <$>
      filter (λ c, SLA.breachedUnescalated t c = true)
        ((λ c, if SLA.breachedUnescalated now c
               then SLA.mkEscalation (SLA.e_complaint c) true else c) <$> complaints)
    = SLA.e_complaint <$>
        filter (λ e, SLA.breachedUnescalated t e = true
                     ∧ SLA.breachedUnescalated now e = false) complaints).
  { intros t. induction complaints as [|e l IH]; [done|].
    rewrite fmap_cons, !filter_cons.
    destruct (SLA.breachedUnescalated now e) eqn:Hdue.
    - rewrite (breachedUnescalated_marked t e).
      rewrite decide_False by done.
      rewrite decide_False by (intros [_ ?]; done).
      exact IH.
    - destruct (SLA.breachedUnescalated t e) eqn:Hdue'.
      + rewrite decide_True by done. rewrite decide_True by done.
        rewrite !fmap_cons. by f_equal.
      + rewrite decide_False by done.
        rewrite decide_False by (intros [? _]; done).
        exact IH. }
  split; [apply Hsecond|].
  f_equal.
  - rewrite Hsecond.
    clear Hsecond. induction complaints as [|e l IH]; [done|].
    rewrite filter_cons_False by (intros [H1 H2]; congruence). exact IH.
  - rewrite <- list_fmap_compose. apply list_fmap_ext.
    intros i e _. simpl.
    destruct (SLA.breachedUnescalated now e) eqn:Hdue; simpl.
    + by rewrite (breachedUnescalated_marked now e).
    + by rewrite Hdue.
Qed.

(** ** More on status updates *)

Section StatusUpdateMore.

Import ComplaintStatusService.

Implicit Types (env : Env) (s : Store) (statusData : StatusUpdateData).

(** A key outside [writtenKeys] is not in [updateFields]. *)
Lemma updateFields_other_key statusData key :
  key ∉ writtenKeys → updateFields statusData !! key = None.
Proof.
  unfold writtenKeys. rewrite !not_elem_of_cons. intros Hkey.
  destruct Hkey as (? & ? & ? & ? & ? & ? & ? & ? & ? & _).
  unfold updateFields, assignField, spreadIf.
  destruct (su_status statusData), (su_notes statusData), (su_department statusData),
    (su_assignedTo statusData), (su_resolvedImageUrl statusData);
    simpl; repeat case_bool_decide; by simplify_map_eq.
Qed.

(** Unless the new status is "resolved", the resolution fields are not in
    [updateFields]. *)
Lemma updateFields_resolution_key statusData key :
  su_status statusData ≠ resolved →
  key ∈ resolutionKeys →
  updateFields statusData !! key = None.
Proof.
  unfold resolutionKeys. intros Hst Hkey.
  rewrite !elem_of_cons, elem_of_nil in Hkey.
  unfold updateFields, assignField, spreadIf.
  destruct (su_status statusData), (su_notes statusData), (su_department statusData),
    (su_assignedTo statusData); try done;
    simpl; repeat case_bool_decide;
    destruct Hkey as [->|[->|[->|[]]]]; by simplify_map_eq.
Qed.

(** The outcome of [updateComplaintStatus], by cases: it either throws and
    leaves the store alone, or merges the fields into the document that was
    there. *)
Lemma updateComplaintStatus_outcome env s complaintId statusData :
  (∃ reason,
     updateComplaintStatus env complaintId statusData s
     = (s, Throw (Error ("Failed to update complaint status: " +:+ reason))))
  ∨ (∃ doc,
       complaints s !! complaintId = Some doc
       ∧ faults env CS_getDoc = None
       ∧ faults env CS_updateDoc = None
       ∧ updateComplaintStatus env complaintId statusData s
         = (mkStore (<[complaintId := updateFields statusData ∪ doc]> (complaints s))
              (match faults env CS_addHistory with
               | None =>
                   statusHistory s ++
                     [ {| h_complaintId := complaintId;
                          h_previousStatus := orElse (doc !! "status") (VStr "submitted");
                          h_newStatus := su_status statusData;
                          h_updatedBy := su_updatedBy statusData;
                          h_updatedAt := su_updatedAt statusData;
                          h_notes := su_notes statusData |} ]
               | Some _ => statusHistory s
               end)
              (fcmTokens s) (notificationLogs s) (sentMessages s),
            Ok tt)).
Proof.
  destruct (faults env CS_getDoc) as [msg|] eqn:Hread.
  { left. exists msg. unfold updateComplaintStatus, tryCatch, bind.
    by rewrite (getDoc_fault _ _ _ _ _ Hread). }
  destruct (complaints s !! complaintId) as [doc|] eqn:Hdoc.
  2: { left. eexists. by apply updateComplaintStatus_missing. }
  destruct (faults env CS_updateDoc) as [msg|] eqn:Hwrite.
  { left. exists msg. unfold updateComplaintStatus, tryCatch, bind.
    rewrite (getDoc_ok _ _ _ _ Hread), Hdoc.
    unfold updateDoc, bind. by rewrite (external_fault _ _ _ _ Hwrite). }
  right. exists doc. repeat split; try done.
  by apply updateComplaintStatus_existing.
Qed.

End StatusUpdateMore.

(** X6: [updateComplaintStatus] is all or nothing on the complaint: when it
    throws, the error reads "Failed to update complaint status: ..." and
    every collection is as it was; when it returns, the complaint was there
    and now carries the new status. *)
Theorem updateComplaintStatus_fails_without_writing
    (env : Env) (s : Store) (complaintId : string) (statusData : StatusUpdateData) :
  let outcome := ComplaintStatusService.updateComplaintStatus env complaintId statusData s in
  match outcome.2 with
  | Throw e =>
      outcome.1 = s
      ∧ ∃ reason, e = Error ("Failed to update complaint status: " +:+ reason)
  | Ok _ =>
      ∃ doc stored,
        complaints s !! complaintId = Some doc
        ∧ complaints outcome.1 !! complaintId = Some stored
        ∧ stored !! "status" = Some (VStr (statusString (su_status statusData)))
  end.
Proof.
  destruct (updateComplaintStatus_outcome env s complaintId statusData)
    as [(reason & ->)|(doc & Hdoc & _ & _ & ->)]; simpl.
  - split; [done | by exists reason].
  - exists doc, (ComplaintStatusService.updateFields statusData ∪ doc).
    split; [done|]. split; [apply lookup_insert_eq|].
    apply lookup_union_Some_l, updateFields_status.
Qed.

(** X7: a status update never creates or deletes a complaint, never touches
    another complaint, and inside the updated document changes none of the
    fields outside [writtenKeys] (the submitter, the category, the creation
    time stay as they were), whatever the outcome. *)
Theorem updateComplaintStatus_preserves_other_data
    (env : Env) (s : Store) (complaintId : string) (statusData : StatusUpdateData) :
  let s' := (ComplaintStatusService.updateComplaintStatus env complaintId statusData s).1 in
  (∀ other, other ≠ complaintId → complaints s' !! other = complaints s !! other)
  ∧ (is_Some (complaints s' !! complaintId) ↔ is_Some (complaints s !! complaintId))
  ∧ ∀ doc stored key,
      complaints s !! complaintId = Some doc →
      complaints s' !! complaintId = Some stored →
      key ∉ writtenKeys →
      stored !! key = doc !! key.
Proof.
  destruct (updateComplaintStatus_outcome env s complaintId statusData)
    as [(reason & ->)|(doc & Hdoc & _ & _ & ->)]; simpl.
  - split; [done|]. split; [done|]. intros doc stored key -> [= ->] _. done.
  - split; [intros other Hne; by rewrite lookup_insert_ne|].
    split; [rewrite lookup_insert_eq, Hdoc; split; by eauto|].
    intros doc0 stored key Hdoc0. rewrite lookup_insert_eq. intros [= <-] Hkey.
    assert (doc0 = doc) as -> by congruence.
    rewrite lookup_union_r; [done | by apply updateFields_other_key].
Qed.

Lemma updateComplaintStatus_preserves_other_data_witness :
  let s' := (ComplaintStatusService.updateComplaintStatus calmEnv "C1"
               (resolvedUpdate "img") storeWithToken).1 in
  (∀ other, other ≠ "C1" → complaints s' !! other = complaints storeWithToken !! other)
  ∧ (is_Some (complaints s' !! "C1") ↔ is_Some (complaints storeWithToken !! "C1"))
  ∧ ∀ doc stored key,
      complaints storeWithToken !! "C1" = Some doc →
      complaints s' !! "C1" = Some stored →
      key ∉ writtenKeys →
      stored !! key = doc !! key.
Proof.
  exact (updateComplaintStatus_preserves_other_data calmEnv storeWithToken "C1"
           (resolvedUpdate "img")).
Defined.

(** X8: an update to any status other than "resolved" leaves the
    resolution fields of the document (image, resolver, resolution time) as
    they were, even when the caller supplies them. *)
Theorem non_resolved_update_keeps_resolution_fields
    (env : Env) (s : Store) (complaintId : string) (statusData : StatusUpdateData)
    (doc stored : gmap string Value) (key : string)
    (Hstatus : su_status statusData ≠ resolved)
    (Hdoc : complaints s !! complaintId = Some doc)
    (Hstored :
       complaints
         (ComplaintStatusService.updateComplaintStatus env complaintId statusData s).1
         !! complaintId = Some stored)
    (Hkey : key ∈ resolutionKeys) :
  stored !! key = doc !! key.
Proof.
  revert Hstored.
  destruct (updateComplaintStatus_outcome env s complaintId statusData)
    as [(reason & ->)|(doc0 & Hdoc0 & _ & _ & ->)]; simpl.
  - congruence.
  - rewrite lookup_insert_eq. intros [= <-].
    assert (doc0 = doc) as -> by congruence.
    rewrite lookup_union_r; [done | by apply updateFields_resolution_key].
Qed.

Lemma non_resolved_update_keeps_resolution_fields_witness :
  (ComplaintStatusService.updateFields
     (mkStatusUpdateData closed "admin-1" 1700000000000 None None None
        (Some "img") (Some "admin-2") (Some 5))
   ∪ <["resolvedBy" := VStr "admin-0"]> (complaintWithStatus "resolved"))
    !! "resolvedBy"
  = <["resolvedBy" := VStr "admin-0"]> (complaintWithStatus "resolved") !! "resolvedBy".
Proof.
  apply (non_resolved_update_keeps_resolution_fields calmEnv
           (mkStore {[ "C1" := <["resolvedBy" := VStr "admin-0"]>
                                 (complaintWithStatus "resolved") ]} [] ∅ [] [])
           "C1"
           (mkStatusUpdateData closed "admin-1" 1700000000000 None None None
              (Some "img") (Some "admin-2") (Some 5))).
  - discriminate.
  - vm_compute; reflexivity.
  - vm_compute; reflexivity.
  - unfold resolutionKeys. set_solver.
Defined.

Section HistoryFacts.


End HistoryFacts.



Section ConvenienceFacts.

Lemma orElseStr_nonempty (v : option string) (d : string) :
  d ≠ "" → orElseStr v d ≠ "".
Proof.
  intros Hd. unfold orElseStr, truthyStr.
  destruct v as [x|]; [|done]. case_bool_decide; done.
Qed.

Lemma spreadIf_lookup key (v : string) o :
  v ≠ "" → ComplaintStatusService.spreadIf key (Some v) o !! key = Some (VStr v).
Proof.
  intros Hv. unfold ComplaintStatusService.spreadIf.
  rewrite bool_decide_false by done. apply lookup_insert_eq.
Qed.

End ConvenienceFacts.

(** X10: [ComplaintStatusService.assignComplaint] with a non-empty staff
    member and department, on an existing complaint whose read and write
    succeed, stores status "in-progress", the assignee and the department,
    and never leaves the note empty: the note given, or
    "Assigned to <staff> in <department> department" when none or an empty
    one is given. *)
Theorem assignComplaint_stores_assignment
    (env : Env) (s : Store) (complaintId assignedTo department assignedBy : string)
    (notes : option string) (doc : gmap string Value)
    (Hdoc : complaints s !! complaintId = Some doc)
    (Hread : faults env CS_getDoc = None)
    (Hwrite : faults env CS_updateDoc = None)
    (Hstaff : assignedTo ≠ "")
    (Hdept : department ≠ "") :
  ∃ s' stored,
    ComplaintStatusService.assignComplaint env complaintId assignedTo department
      assignedBy notes s = (s', Ok tt)
    ∧ complaints s' !! complaintId = Some stored
    ∧ stored !! "status" = Some (VStr "in-progress")
    ∧ stored !! "assignedTo" = Some (VStr assignedTo)
    ∧ stored !! "department" = Some (VStr department)
    ∧ stored !! "updatedBy" = Some (VStr assignedBy)
    ∧ stored !! "lastUpdateNotes"
      = Some (VStr (orElseStr notes
                      ("Assigned to " +:+ assignedTo +:+ " in " +:+ department
                       +:+ " department"))).
Proof.
  unfold ComplaintStatusService.assignComplaint.
  rewrite (updateComplaintStatus_existing _ _ _ _ _ Hdoc Hread Hwrite).
  eexists _, _. split; [reflexivity|]. simpl.
  split; [apply lookup_insert_eq|].
  assert (Hnote : orElseStr notes
            ("Assigned to " +:+ assignedTo +:+ " in " +:+ department +:+ " department")
            ≠ "") by (by apply orElseStr_nonempty).
  repeat split; apply lookup_union_Some_l;
    unfold ComplaintStatusService.updateFields, ComplaintStatusService.spreadIf; simpl;
    rewrite !bool_decide_false by done; by simplify_map_eq.
Qed.

Lemma assignComplaint_stores_assignment_witness :
  ∃ s' stored,
    ComplaintStatusService.assignComplaint calmEnv "C1" "staff-1" "Public Works"
      "admin-1" None storeWithToken = (s', Ok tt)
    ∧ complaints s' !! "C1" = Some stored
    ∧ stored !! "status" = Some (VStr "in-progress")
    ∧ stored !! "assignedTo" = Some (VStr "staff-1")
    ∧ stored !! "department" = Some (VStr "Public Works")
    ∧ stored !! "updatedBy" = Some (VStr "admin-1")
    ∧ stored !! "lastUpdateNotes"
      = Some (VStr (orElseStr None
                      ("Assigned to " +:+ "staff-1" +:+ " in " +:+ "Public Works"
                       +:+ " department"))).
Proof.
  apply (assignComplaint_stores_assignment calmEnv storeWithToken "C1" "staff-1"
           "Public Works" "admin-1" None (complaintWithStatus "submitted"));
    try (vm_compute; reflexivity); discriminate.
Defined.



(** ** The Orchestrator as a whole *)

Section OrchestratorFacts.

Implicit Types (env : Env) (s : Store).

(** [updateStatusAndNotify], by cases: it throws and leaves the store
    alone, or it returns and the store is the one left by the status update
    with some entries appended to the notification log. *)
Lemma updateStatusAndNotify_outcome env s complaintId newStatus updatedBy options :
  (∃ e,
     NotificationService.updateStatusAndNotify env complaintId newStatus updatedBy
       options s = (s, Throw e))
  ∨ (∃ doc s1 added,
       complaints s !! complaintId = Some doc
       ∧ ComplaintStatusService.updateComplaintStatus env complaintId
           (orchestratorUpdate env newStatus updatedBy options) s = (s1, Ok tt)
       ∧ NotificationService.updateStatusAndNotify env complaintId newStatus updatedBy
           options s
         = (mkStore (complaints s1) (statusHistory s1) (fcmTokens s1)
              (notificationLogs s1 ++ added) (sentMessages s1), Ok tt)).
Proof.
  unfold NotificationService.updateStatusAndNotify, fetchUserComplaintById,
    tryCatch, bind.
  destruct (faults env NS_fetchCurrent) as [msg|] eqn:Hfetch.
  { left. eexists. by rewrite (getDoc_fault _ _ _ _ _ Hfetch). }
  rewrite (getDoc_ok _ _ _ _ Hfetch).
  destruct (complaints s !! complaintId) as [doc|] eqn:Hdoc; [|left; by eexists].
  fold (orchestratorUpdate env newStatus updatedBy options).
  destruct (updateComplaintStatus_outcome env s complaintId
              (orchestratorUpdate env newStatus updatedBy options))
    as [(reason & ->)|(doc0 & Hdoc0 & _ & _ & Hrun)].
  { left. by eexists. }
  right. rewrite Hrun.
  match goal with
  | |- context [NotificationService.triggerNotification env ?tr ?s1] =>
      destruct (triggerNotification_effect env s1 tr) as (added & -> & _)
  end.
  eexists doc, _, added. split; [done|]. split; reflexivity.
Qed.

End OrchestratorFacts.

(** X12: a failing dispatch never fails the status update.  For an existing
    complaint whose reads and write succeed, [updateStatusAndNotify] returns
    normally and the complaint carries the new status, whatever happens to
    the second fetch, the token lookup and the writes to the notification
    log. *)
Theorem dispatch_failure_does_not_fail_update
    (env : Env) (s : Store) (complaintId : string) (newStatus : ComplaintStatus)
    (updatedBy : string) (options : NotificationService.Options)
    (doc : gmap string Value)
    (Hdoc : complaints s !! complaintId = Some doc)
    (Hfetch : faults env NS_fetchCurrent = None)
    (Hread : faults env CS_getDoc = None)
    (Hwrite : faults env CS_updateDoc = None) :
  ∃ s' stored,
    NotificationService.updateStatusAndNotify env complaintId newStatus updatedBy
      options s = (s', Ok tt)
    ∧ complaints s' !! complaintId = Some stored
    ∧ stored !! "status" = Some (VStr (statusString newStatus)).
Proof.
  destruct (updateStatusAndNotify_outcome env s complaintId newStatus updatedBy options)
    as [(e & Hrun)|(doc0 & s1 & added & Hdoc0 & Hupd & ->)].
  - exfalso. revert Hrun.
    unfold NotificationService.updateStatusAndNotify, fetchUserComplaintById,
      tryCatch, bind.
    rewrite (getDoc_ok _ _ _ _ Hfetch), Hdoc.
    rewrite (updateComplaintStatus_existing _ _ _ _ _ Hdoc Hread Hwrite).
    match goal with
    | |- context [NotificationService.triggerNotification env ?tr ?s1] =>
        destruct (triggerNotification_effect env s1 tr) as (added & -> & _)
    end.
    discriminate.
  - rewrite (updateComplaintStatus_existing _ _ _ _ _ Hdoc Hread Hwrite) in Hupd.
    injection Hupd as <-.
    eexists _, _. split; [reflexivity|]. simpl.
    split; [apply lookup_insert_eq|].
    apply lookup_union_Some_l, updateFields_status.
Qed.

Lemma dispatch_failure_does_not_fail_update_witness :
  ∃ s' stored,
    NotificationService.updateStatusAndNotify dispatchDownEnv "C1" in_progress "admin-1"
      (NotificationService.mkOptions None None None) storeWithToken = (s', Ok tt)
    ∧ complaints s' !! "C1" = Some stored
    ∧ stored !! "status" = Some (VStr (statusString in_progress)).
Proof.
  apply (dispatch_failure_does_not_fail_update dispatchDownEnv storeWithToken "C1"
           in_progress "admin-1" (NotificationService.mkOptions None None None)
           (complaintWithStatus "submitted"));
    vm_compute; reflexivity.
Defined.

(** X13: when [updateStatusAndNotify] throws, nothing was written and
    nothing was dispatched: every collection and the messaging queue are as
    they were. *)
Theorem failed_orchestration_leaves_no_trace
    (env : Env) (s : Store) (complaintId : string) (newStatus : ComplaintStatus)
    (updatedBy : string) (options : NotificationService.Options) (e : JsError)
    (Hthrows :
       (NotificationService.updateStatusAndNotify env complaintId newStatus updatedBy
          options s).2 = Throw e) :
  (NotificationService.updateStatusAndNotify env complaintId newStatus updatedBy
     options s).1 = s.
Proof.
  revert Hthrows.
  destruct (updateStatusAndNotify_outcome env s complaintId newStatus updatedBy options)
    as [(e' & ->)|(doc0 & s1 & added & Hdoc0 & Hupd & ->)]; simpl; [done|].
  intros [=].
Qed.

Lemma failed_orchestration_leaves_no_trace_witness :
  (NotificationService.updateStatusAndNotify calmEnv "ISS-0000" resolved "admin-1"
     (NotificationService.mkOptions None None (Some "fixed")) storeWithToken).2
  = Throw (Error "Complaint ISS-0000 not found")
  ∧ (NotificationService.updateStatusAndNotify calmEnv "ISS-0000" resolved "admin-1"
       (NotificationService.mkOptions None None (Some "fixed")) storeWithToken).1
    = storeWithToken.
Proof.
  split; [vm_compute; reflexivity|].
  apply (failed_orchestration_leaves_no_trace calmEnv storeWithToken "ISS-0000" resolved
           "admin-1" (NotificationService.mkOptions None None (Some "fixed"))
           (Error "Complaint ISS-0000 not found")).
  vm_compute; reflexivity.
Defined.

(** X14: the Orchestrator's direct dispatch never hands a message to the
    messaging service and never touches the device tokens; for the status
    "closed" it does not write to the notification log either. *)
Theorem direct_dispatch_never_sends
    (env : Env) (s : Store) (complaintId : string) (newStatus : ComplaintStatus)
    (updatedBy : string) (options : NotificationService.Options) :
  let s' :=
    (NotificationService.updateStatusAndNotify env complaintId newStatus updatedBy
       options s).1 in
  sentMessages s' = sentMessages s
  ∧ fcmTokens s' = fcmTokens s
  ∧ (newStatus = closed → notificationLogs s' = notificationLogs s).
Proof.
  simpl.
  destruct (updateStatusAndNotify_logs env s complaintId newStatus updatedBy options)
    as (added' & Hlogs & Hadded).
  destruct (updateStatusAndNotify_outcome env s complaintId newStatus updatedBy options)
    as [(e & Hrun)|(doc0 & s1 & added & Hdoc0 & Hupd & Hrun)];
    rewrite Hrun in *; simpl in *.
  - done.
  - pose proof (updateComplaintStatus_frame env s complaintId
                  (orchestratorUpdate env newStatus updatedBy options)) as Hframe.
    rewrite Hupd in Hframe. simpl in Hframe. destruct Hframe as (Htok & Hl & Hsent).
    split; [done|]. split; [done|].
    intros ->. rewrite Hlogs.
    destruct added' as [|l rest]; [by rewrite app_nil_r|].
    destruct (Hadded l) as (_ & kind & Hkind & _); [by left|]. discriminate Hkind.
Qed.

Lemma direct_dispatch_never_sends_witness :
  let s' :=
    (NotificationService.updateStatusAndNotify calmEnv "C1" closed "admin-1"
       (NotificationService.mkOptions None None None) storeWithToken).1 in
  sentMessages s' = sentMessages storeWithToken
  ∧ fcmTokens s' = fcmTokens storeWithToken
  ∧ (closed = closed → notificationLogs s' = notificationLogs storeWithToken).
Proof.
  exact (direct_dispatch_never_sends calmEnv storeWithToken "C1" closed "admin-1"
           (NotificationService.mkOptions None None None)).
Defined.

(** X15: no status update made through the Orchestrator changes the stored
    proof image of a complaint: [updateStatusAndNotify] has no image to
    give, not even for "resolved". *)
Theorem orchestrator_never_changes_proof_image
    (env : Env) (s : Store) (complaintId : string) (newStatus : ComplaintStatus)
    (updatedBy : string) (options : NotificationService.Options) :
  let s' :=
    (NotificationService.updateStatusAndNotify env complaintId newStatus updatedBy
       options s).1 in
  ∀ other,
    (complaints s' !! other) ≫= (.!! "resolvedImageBase64")
    = (complaints s !! other) ≫= (.!! "resolvedImageBase64").
Proof.
  simpl.
  destruct (updateStatusAndNotify_outcome env s complaintId newStatus updatedBy options)
    as [(e & ->)|(doc0 & s1 & added & Hdoc0 & Hupd & ->)]; simpl; [done|].
  destruct (updateComplaintStatus_outcome env s complaintId
              (orchestratorUpdate env newStatus updatedBy options))
    as [(reason & Hrun)|(doc & Hdoc & _ & _ & Hrun)];
    rewrite Hrun in Hupd; [discriminate|].
  injection Hupd as <-. simpl. intros other.
  destruct (decide (other = complaintId)) as [->|Hne].
  - rewrite lookup_insert_eq, Hdoc. simpl.
    rewrite lookup_union_r; [done|].
    unfold ComplaintStatusService.updateFields, ComplaintStatusService.spreadIf,
      ComplaintStatusService.assignField, orchestratorUpdate; simpl.
    destruct newStatus, (NotificationService.o_notes options),
      (NotificationService.o_department options),
      (NotificationService.o_assignedTo options);
      simpl; repeat case_bool_decide; by simplify_map_eq.
  - by rewrite lookup_insert_ne.
Qed.

(** ** More on the Trigger Handler *)

(** X17: a write to an existing complaint that does not change the status,
    or changes it to anything but "in-progress" and "resolved", makes the
    Trigger Handler return [null] with nothing sent and nothing logged. *)
Theorem trigger_ignores_quiet_writes
    (env : Env) (s : Store) (old newData : gmap string Value) (complaintId : string)
    (Hquiet : old !! "status" = newData !! "status"
              ∨ (newData !! "status" ≠ Some (VStr "in-progress")
                 ∧ newData !! "status" ≠ Some (VStr "resolved"))) :
  Functions.onComplaintStatusChange env (Some old) (Some newData) complaintId s
  = (s, Ok None).
Proof.
  unfold Functions.onComplaintStatusChange, tryCatch, ret.
  destruct (negb (truthy _)); [done|].
  assert (Hnone : Functions.notificationTypeOf (Some old) newData = None).
  { unfold Functions.notificationTypeOf.
    destruct Hquiet as [Heq|[Hp Hr]].
    - by rewrite bool_decide_false by (by intros Hne).
    - case_bool_decide; [|done]. by rewrite !bool_decide_false. }
  by rewrite Hnone.
Qed.

Lemma trigger_ignores_quiet_writes_witness :
  Functions.onComplaintStatusChange calmEnv (Some (complaintWithStatus "in-progress"))
    (Some (<["assignedTo" := VStr "staff-2"]> (complaintWithStatus "in-progress")))
    "C1" storeWithToken
  = (storeWithToken, Ok None).
Proof.
  apply (trigger_ignores_quiet_writes calmEnv storeWithToken
           (complaintWithStatus "in-progress")
           (<["assignedTo" := VStr "staff-2"]> (complaintWithStatus "in-progress")) "C1").
  left. vm_compute; reflexivity.
Defined.

(** X18: the Trigger Handler logs only what it sent.  Whatever the write
    and whatever fails, it adds at most one log entry, and then it has just
    queued the message that entry describes (same token, title, body and
    kind), the entry has status "sent" and the handler returns the message
    id.  It never writes an entry with status "failed": every error ends in
    the [ReferenceError] of its [catch] block. *)
Theorem trigger_logs_only_what_it_sent
    (env : Env) (s : Store) (before after : option (gmap string Value))
    (complaintId : string) :
  let outcome := Functions.onComplaintStatusChange env before after complaintId s in
  (∀ e, outcome.2 = Throw e → e = ReferenceError "newData is not defined")
  ∧ (notificationLogs outcome.1 = notificationLogs s
     ∨ ∃ l m,
         notificationLogs outcome.1 = notificationLogs s ++ [l]
         ∧ sentMessages outcome.1 = sentMessages s ++ [m]
         ∧ l_status l = "sent"
         ∧ l_fcmToken l = Some (m_token m)
         ∧ l_title l = m_title m ∧ l_body l = m_body m ∧ l_type l = m_type m
         ∧ l_complaintId l = complaintId
         ∧ outcome.2 = Ok (l_messageId l)).
Proof.
  unfold Functions.onComplaintStatusChange, messagingSend, addLogDoc, getTokenDoc,
    tryCatch, bind, external, ret, throw.
  destruct after as [newData|]; simpl; [|split; [done | by left]].
  destruct (Functions.notificationTypeOf before newData) as [kind|] eqn:Hkind;
    repeat case_match; simplify_eq/=;
    (split; [intros e' [=]; done|]);
    first [ by left | right; eexists _, _; by repeat split ].
Qed.

(** X19: a write that calls for a notification, to a submitter with an
    active token and with the services up, sends exactly one message, to
    that token, linking to the complaint, logs exactly one "sent" entry of
    the same kind, and returns the message id. *)
Theorem trigger_sends_and_logs_once
    (env : Env) (s : Store) (before : option (gmap string Value))
    (newData : gmap string Value) (complaintId user : string)
    (kind : NotificationKind) (tokenData : FCMTokenData)
    (Huser : newData !! "userId" = Some (VStr user))
    (Hnonempty : user ≠ "")
    (Hkind : Functions.notificationTypeOf before newData = Some kind)
    (Htoken : fcmTokens s !! (user +:+ "_web") = Some tokenData)
    (Hactive : t_isActive tokenData = true)
    (Hcalm : ∀ site, faults env site = None) :
  ∃ l m,
    Functions.onComplaintStatusChange env before (Some newData) complaintId s
    = (mkStore (complaints s) (statusHistory s) (fcmTokens s)
         (notificationLogs s ++ [l]) (sentMessages s ++ [m]),
       Ok (Some (messageId env)))
    ∧ m_token m = t_token tokenData
    ∧ m_type m = kindString kind
    ∧ m_clickAction m = Some (appUrl env +:+ "/complaints/" +:+ complaintId)
    ∧ l_type l = kindString kind
    ∧ l_status l = "sent"
    ∧ l_userId l = Some (VStr user)
    ∧ l_complaintId l = complaintId
    ∧ l_messageId l = Some (messageId env).
Proof.
  unfold Functions.onComplaintStatusChange, tryCatch, bind.
  rewrite Huser. simpl. rewrite bool_decide_false by done. simpl.
  rewrite Hkind, (getTokenDoc_ok _ _ _ _ (Hcalm _)), Htoken, Hactive. simpl.
  rewrite (external_ok _ _ _ (Hcalm _)).
  unfold messagingSend, addLogDoc, bind.
  rewrite !(external_ok _ _ _ (Hcalm _)). simpl.
  eexists _, _. split; [reflexivity|]. by repeat split.
Qed.

Lemma trigger_sends_and_logs_once_witness :
  ∃ l m,
    Functions.onComplaintStatusChange calmEnv None (Some (complaintWithStatus "submitted"))
      "C1" storeWithToken
    = (mkStore (complaints storeWithToken) (statusHistory storeWithToken)
         (fcmTokens storeWithToken)
         (notificationLogs storeWithToken ++ [l]) (sentMessages storeWithToken ++ [m]),
       Ok (Some (messageId calmEnv)))
    ∧ m_token m = t_token (tokenOfU1 true)
    ∧ m_type m = kindString confirmation
    ∧ m_clickAction m = Some (appUrl calmEnv +:+ "/complaints/" +:+ "C1")
    ∧ l_type l = kindString confirmation
    ∧ l_status l = "sent"
    ∧ l_userId l = Some (VStr "u1")
    ∧ l_complaintId l = "C1"
    ∧ l_messageId l = Some (messageId calmEnv).
Proof.
  apply (trigger_sends_and_logs_once calmEnv storeWithToken None
           (complaintWithStatus "submitted") "C1" "u1" confirmation (tokenOfU1 true));
    try (vm_compute; reflexivity); discriminate.
Defined.

Section DoubleDispatchFacts.

Implicit Types (env : Env) (s : Store).


End DoubleDispatchFacts.



(** ** More on the custom-notification endpoint *)

Section CustomMore.

Implicit Types (env : Env) (s : Store) (data : Functions.CustomData).

Lemma requiredPresent_guard data :
  requiredPresent data = true →
  negb (truthyStr (Functions.d_userId data))
  || negb (truthyStr (Functions.d_complaintId data))
  || negb (truthyStr (Functions.d_title data))
  || negb (truthyStr (Functions.d_body data)) = false.
Proof.
  unfold requiredPresent.
  by destruct (truthyStr (Functions.d_userId data)),
    (truthyStr (Functions.d_complaintId data)),
    (truthyStr (Functions.d_title data)),
    (truthyStr (Functions.d_body data)).
Qed.

End CustomMore.

(** X20: a call that is refused leaves no trace.  When the caller is not
    authenticated, a required field is missing, or the target user's token
    record (read without error) is absent or inactive, the endpoint throws
    and the collections and the messaging queue are as they were. *)
Theorem refused_custom_notification_leaves_no_trace
    (env : Env) (s : Store) (auth : option string) (data : Functions.CustomData)
    (Hrefused :
       auth = None
       ∨ requiredPresent data = false
       ∨ (faults env CN_getToken = None
          ∧ tokenUnavailable s (default "" (Functions.d_userId data) +:+ "_web"))) :
  ∃ e, Functions.sendCustomNotification env auth data s = (s, Throw e).
Proof.
  destruct auth as [uid|]; [|by eexists].
  destruct (requiredPresent data) eqn:Hpresent.
  2: { eexists. by apply sendCustomNotification_invalid_argument. }
  destruct Hrefused as [?|[?|[Hread Htoken]]]; try done.
  unfold Functions.sendCustomNotification.
  rewrite (requiredPresent_guard _ Hpresent).
  unfold tryCatch, bind. rewrite (getTokenDoc_ok _ _ _ _ Hread).
  unfold tokenUnavailable in Htoken.
  destruct (fcmTokens s !! _) as [tokenData|]; [|by eexists].
  rewrite Htoken. by eexists.
Qed.

Lemma refused_custom_notification_leaves_no_trace_witness :
  ∃ e,
    Functions.sendCustomNotification calmEnv (Some "admin-1")
      (Functions.mkCustomData (Some "u1") (Some "C1") (Some "Update") None None)
      storeWithToken
    = (storeWithToken, Throw e).
Proof.
  apply (refused_custom_notification_leaves_no_trace calmEnv storeWithToken
           (Some "admin-1")
           (Functions.mkCustomData (Some "u1") (Some "C1") (Some "Update") None None)).
  right. left. reflexivity.
Defined.

(** X21: a successful call sends exactly one message to the target user's
    token and logs exactly one "sent" entry that names the caller; the kind
    of both is the [type] given, or "custom" when none or an empty one is
    given. *)
Theorem custom_notification_sends_and_logs_once
    (env : Env) (s : Store) (uid : string) (data : Functions.CustomData)
    (tokenData : FCMTokenData)
    (Hpresent : requiredPresent data = true)
    (Hcalm : ∀ site, faults env site = None)
    (Htoken : fcmTokens s !! (default "" (Functions.d_userId data) +:+ "_web")
              = Some tokenData)
    (Hactive : t_isActive tokenData = true) :
  ∃ l m,
    Functions.sendCustomNotification env (Some uid) data s
    = (mkStore (complaints s) (statusHistory s) (fcmTokens s)
         (notificationLogs s ++ [l]) (sentMessages s ++ [m]),
       Ok {| Functions.success := true; Functions.r_messageId := messageId env |})
    ∧ m_token m = t_token tokenData
    ∧ Some (m_title m) = Functions.d_title data
    ∧ Some (m_body m) = Functions.d_body data
    ∧ m_type m = orElseStr (Functions.d_type data) "custom"
    ∧ l_type l = orElseStr (Functions.d_type data) "custom"
    ∧ l_status l = "sent"
    ∧ l_sentBy l = Some uid
    ∧ l_messageId l = Some (messageId env).
Proof.
  unfold Functions.sendCustomNotification.
  rewrite (requiredPresent_guard _ Hpresent).
  unfold messagingSend, addLogDoc, tryCatch, bind.
  rewrite (getTokenDoc_ok _ _ _ _ (Hcalm _)), Htoken, Hactive; simpl.
  rewrite !(external_ok _ _ _ (Hcalm _)). simpl.
  eexists _, _. split; [reflexivity|]. simpl.
  unfold requiredPresent, truthyStr in Hpresent.
  destruct (Functions.d_title data), (Functions.d_body data),
    (Functions.d_userId data), (Functions.d_complaintId data);
    simpl in Hpresent; rewrite ?andb_false_r in Hpresent; done.
Qed.

Lemma custom_notification_sends_and_logs_once_witness :
  ∃ l m,
    Functions.sendCustomNotification calmEnv (Some "admin-1")
      (Functions.mkCustomData (Some "u1") (Some "C1") (Some "Update")
         (Some "Please check") None) storeWithToken
    = (mkStore (complaints storeWithToken) (statusHistory storeWithToken)
         (fcmTokens storeWithToken)
         (notificationLogs storeWithToken ++ [l]) (sentMessages storeWithToken ++ [m]),
       Ok {| Functions.success := true; Functions.r_messageId := messageId calmEnv |})
    ∧ m_token m = t_token (tokenOfU1 true)
    ∧ Some (m_title m) = Some "Update"
    ∧ Some (m_body m) = Some "Please check"
    ∧ m_type m = orElseStr None "custom"
    ∧ l_type l = orElseStr None "custom"
    ∧ l_status l = "sent"
    ∧ l_sentBy l = Some "admin-1"
    ∧ l_messageId l = Some (messageId calmEnv).
Proof.
  apply (custom_notification_sends_and_logs_once calmEnv storeWithToken "admin-1"
           (Functions.mkCustomData (Some "u1") (Some "C1") (Some "Update")
              (Some "Please check") None) (tokenOfU1 true));
    vm_compute; reflexivity.
Defined.

(** X22: delivered, yet reported as failed.  When the message is sent and
    the write to the notification log then fails, the endpoint throws
    [internal] with the message of the log error, although the message is
    already in the messaging queue; nothing is logged. *)
Theorem custom_notification_sent_but_reported_failed
    (env : Env) (s : Store) (uid msg : string) (data : Functions.CustomData)
    (tokenData : FCMTokenData)
    (Hpresent : requiredPresent data = true)
    (Hread : faults env CN_getToken = None)
    (Hsend : faults env CN_send = None)
    (Hlog : faults env CN_logSent = Some msg)
    (Htoken : fcmTokens s !! (default "" (Functions.d_userId data) +:+ "_web")
              = Some tokenData)
    (Hactive : t_isActive tokenData = true) :
  ∃ m,
    Functions.sendCustomNotification env (Some uid) data s
    = (mkStore (complaints s) (statusHistory s) (fcmTokens s)
         (notificationLogs s) (sentMessages s ++ [m]),
       Throw (HttpsError internal msg))
    ∧ m_token m = t_token tokenData.
Proof.
  unfold Functions.sendCustomNotification.
  rewrite (requiredPresent_guard _ Hpresent).
  unfold messagingSend, addLogDoc, tryCatch, bind.
  rewrite (getTokenDoc_ok _ _ _ _ Hread), Htoken, Hactive; simpl.
  rewrite (external_ok _ _ _ Hsend), (external_fault _ _ _ _ Hlog). simpl.
  by eexists.
Qed.

Lemma custom_notification_sent_but_reported_failed_witness :
  ∃ m,
    Functions.sendCustomNotification customLogDownEnv (Some "admin-1")
      (Functions.mkCustomData (Some "u1") (Some "C1") (Some "Update")
         (Some "Please check") None) storeWithToken
    = (mkStore (complaints storeWithToken) (statusHistory storeWithToken)
         (fcmTokens storeWithToken)
         (notificationLogs storeWithToken) (sentMessages storeWithToken ++ [m]),
       Throw (HttpsError internal "unavailable"))
    ∧ m_token m = t_token (tokenOfU1 true).
Proof.
  apply (custom_notification_sent_but_reported_failed customLogDownEnv storeWithToken
           "admin-1" "unavailable"
           (Functions.mkCustomData (Some "u1") (Some "C1") (Some "Update")
              (Some "Please check") None) (tokenOfU1 true));
    vm_compute; reflexivity.
Defined.

(** ** Retention of the notification log *)

Section CleanupFacts.

Implicit Types (env : Env) (s : Store).

(** [cleanupNotificationLogs], by cases. *)
Lemma cleanupNotificationLogs_outcome env cleanupFaults s :
  Functions.cleanupNotificationLogs env cleanupFaults s = (s, Ok tt)
  ∨ (cleanupFaults Functions.CL_query = None
     ∧ cleanupFaults Functions.CL_commit = None
     ∧ Functions.cleanupNotificationLogs env cleanupFaults s
       = (mkStore (complaints s) (statusHistory s) (fcmTokens s)
            (filter (λ l, Functions.olderThan (now env - Functions.retentionMs) l = false)
               (notificationLogs s))
            (sentMessages s),
          Ok tt)).
Proof.
  unfold Functions.cleanupNotificationLogs, tryCatch, bind, ret, throw.
  destruct (cleanupFaults Functions.CL_query) eqn:Hq; [by left|].
  destruct (filter _ (notificationLogs s)); [by left|].
  destruct (cleanupFaults Functions.CL_commit) eqn:Hc; [by left|].
  right. done.
Qed.

(** Whatever fails, an entry not older than the cutoff stays. *)
Lemma cleanupNotificationLogs_keeps env cleanupFaults s l :
  l ∈ notificationLogs s →
  now env - Functions.retentionMs ≤ l_sentAt l →
  l ∈ notificationLogs (Functions.cleanupNotificationLogs env cleanupFaults s).1.
Proof.
  intros Hl Hrecent.
  destruct (cleanupNotificationLogs_outcome env cleanupFaults s)
    as [->|(_ & _ & ->)]; simpl; [done|].
  apply list_elem_of_filter. split; [|done].
  unfold Functions.olderThan. apply bool_decide_eq_false. lia.
Qed.

End CleanupFacts.

(** X23: the daily cleanup never throws, touches nothing but the
    notification log, never adds to it and never deletes an entry sent
    within the last thirty days, whatever fails; when its query and its
    commit succeed, no entry older than thirty days is left. *)
Theorem cleanup_keeps_recent_logs
    (env : Env) (cleanupFaults : Functions.CleanupSite → option string) (s : Store) :
  let outcome := Functions.cleanupNotificationLogs env cleanupFaults s in
  outcome.2 = Ok tt
  ∧ complaints outcome.1 = complaints s
  ∧ statusHistory outcome.1 = statusHistory s
  ∧ fcmTokens outcome.1 = fcmTokens s
  ∧ sentMessages outcome.1 = sentMessages s
  ∧ (∀ l, l ∈ notificationLogs outcome.1 → l ∈ notificationLogs s)
  ∧ (∀ l, l ∈ notificationLogs s → now env - Functions.retentionMs ≤ l_sentAt l →
          l ∈ notificationLogs outcome.1)
  ∧ ((∀ site, cleanupFaults site = None) →
     ∀ l, l ∈ notificationLogs outcome.1 →
          now env - Functions.retentionMs ≤ l_sentAt l).
Proof.
  destruct (cleanupNotificationLogs_outcome env cleanupFaults s)
    as [Hrun|(Hq & Hc & Hrun)]; rewrite Hrun; simpl.
  - repeat split; try done.
    intros Hcalm l Hl.
    revert Hrun. unfold Functions.cleanupNotificationLogs, tryCatch, bind, ret, throw.
    rewrite !Hcalm.
    destruct (filter _ (notificationLogs s)) as [|old rest] eqn:Hold.
    + intros _. destruct (decide (now env - Functions.retentionMs ≤ l_sentAt l)); [done|].
      exfalso. eapply (filter_nil_not_elem_of _ _ l Hold); [|done].
      unfold Functions.olderThan. apply bool_decide_eq_true. lia.
    + intros [= Hs]. apply (f_equal notificationLogs) in Hs. simpl in Hs. exfalso.
      assert (Hin : old ∈ filter (λ l, Functions.olderThan
                (now env - Functions.retentionMs) l = true) (notificationLogs s))
        by (rewrite Hold; left).
      apply list_elem_of_filter in Hin as [Hisold Hin].
      rewrite <- Hs in Hin. apply list_elem_of_filter in Hin as [Hnot _]. congruence.
  - repeat split; try done.
    + intros l [_ Hl]%list_elem_of_filter. done.
    + intros l Hl Hrecent. apply list_elem_of_filter. split; [|done].
      unfold Functions.olderThan. apply bool_decide_eq_false. lia.
    + intros _ l [Hrecent _]%list_elem_of_filter.
      unfold Functions.olderThan in Hrecent.
      apply bool_decide_eq_false in Hrecent. lia.
Qed.

Lemma cleanup_keeps_recent_logs_witness :
  let outcome := Functions.cleanupNotificationLogs calmEnv (λ _, None) agedLogStore in
  outcome.2 = Ok tt
  ∧ complaints outcome.1 = complaints agedLogStore
  ∧ statusHistory outcome.1 = statusHistory agedLogStore
  ∧ fcmTokens outcome.1 = fcmTokens agedLogStore
  ∧ sentMessages outcome.1 = sentMessages agedLogStore
  ∧ (∀ l, l ∈ notificationLogs outcome.1 → l ∈ notificationLogs agedLogStore)
  ∧ (∀ l, l ∈ notificationLogs agedLogStore →
          now calmEnv - Functions.retentionMs ≤ l_sentAt l →
          l ∈ notificationLogs outcome.1)
  ∧ ((∀ site : Functions.CleanupSite, (λ _, None) site = (None : option string)) →
     ∀ l, l ∈ notificationLogs outcome.1 →
          now calmEnv - Functions.retentionMs ≤ l_sentAt l).
Proof.
  exact (cleanup_keeps_recent_logs calmEnv (λ _, None) agedLogStore).
Defined.

(** X24: an entry logged by a dispatch outlives every cleanup run within
    thirty days of it.  After [sendNotification] has logged its "sent" entry
    at one clock reading, a cleanup at a clock reading at most thirty days
    later, failing or not, leaves that entry in the log. *)
Theorem dispatched_entry_survives_cleanup
    (env later : Env) (cleanupFaults : Functions.CleanupSite → option string)
    (s : Store) (userId : option Value) (complaintId : string)
    (type : NotificationKind) (payload : NotificationPayload)
    (tokenData : FCMTokenData)
    (Hread : faults env FCM_getToken = None)
    (Hlog : faults env FCM_logSent = None)
    (Htoken : fcmTokens s !! (jsString env userId +:+ "_web") = Some tokenData)
    (Hactive : t_isActive tokenData = true)
    (Hwithin : now later ≤ now env + Functions.retentionMs) :
  let s1 := (FCMService.sendNotification env userId complaintId type payload s).1 in
  let s2 := (Functions.cleanupNotificationLogs later cleanupFaults s1).1 in
  ∃ l, l ∈ notificationLogs s2
       ∧ l_complaintId l = complaintId
       ∧ l_type l = kindString type
       ∧ l_status l = "sent"
       ∧ l_sentAt l = now env.
Proof.
  simpl.
  unfold FCMService.sendNotification, FCMService.logNotification, addLogDoc,
    tryCatch, bind.
  rewrite (getTokenDoc_ok _ _ _ _ Hread), Htoken, Hactive; simpl.
  rewrite (external_ok _ _ _ Hlog); simpl.
  eexists. split.
  - apply cleanupNotificationLogs_keeps; [apply elem_of_app; right; left|]. simpl. lia.
  - done.
Qed.

Lemma dispatched_entry_survives_cleanup_witness :
  let s1 := (FCMService.sendNotification calmEnv (Some (VStr "u1")) "C1" resolution
               (FCMService.generateNotificationContent calmEnv resolution
                  (complaintWithStatus "resolved")) storeWithToken).1 in
  let s2 := (Functions.cleanupNotificationLogs calmEnv (λ _, None) s1).1 in
  ∃ l, l ∈ notificationLogs s2
       ∧ l_complaintId l = "C1"
       ∧ l_type l = kindString resolution
       ∧ l_status l = "sent"
       ∧ l_sentAt l = now calmEnv.
Proof.
  apply (dispatched_entry_survives_cleanup calmEnv calmEnv (λ _, None) storeWithToken
           (Some (VStr "u1")) "C1" resolution _ (tokenOfU1 true));
    vm_compute; try reflexivity; discriminate.
Defined.

(** ** The life cycle of a device token *)

Section TokenFacts.

Implicit Types (env : Env) (s : Store) (browser : Browser).

(** [requestPermissionAndGetToken] when a token is obtained. *)
Lemma requestPermissionAndGetToken_granted env browser userId s :
  messagingAvailable browser = true →
  permissionGranted browser = true →
  registrationToken browser ≠ "" →
  browserFaults browser BR_requestPermission = None →
  browserFaults browser BR_getToken = None →
  FCMService.requestPermissionAndGetToken env browser userId s
  = (match browserFaults browser BR_saveToken with
     | None => withToken s (userId +:+ "_web")
                 (freshToken env userId (registrationToken browser))
     | Some _ => s
     end,
     Ok (Some (registrationToken browser))).
Proof.
  intros Hm Hp Ht Hr Hg.
  unfold FCMService.requestPermissionAndGetToken, FCMService.saveTokenToFirestore,
    setTokenDoc, browserCall, tryCatch, bind, ret, throw.
  rewrite Hm, Hr, Hp, Hg. simpl. rewrite bool_decide_false by done. simpl.
  by destruct (browserFaults browser BR_saveToken).
Qed.

(** [requestPermissionAndGetToken], by cases. *)
Lemma requestPermissionAndGetToken_outcome env browser userId s :
  FCMService.requestPermissionAndGetToken env browser userId s = (s, Ok None)
  ∨ (messagingAvailable browser = true
     ∧ permissionGranted browser = true
     ∧ registrationToken browser ≠ ""
     ∧ FCMService.requestPermissionAndGetToken env browser userId s
       = (match browserFaults browser BR_saveToken with
          | None => withToken s (userId +:+ "_web")
                      (freshToken env userId (registrationToken browser))
          | Some _ => s
          end,
          Ok (Some (registrationToken browser)))).
Proof.
  destruct (messagingAvailable browser) eqn:Hm.
  2: { left. unfold FCMService.requestPermissionAndGetToken, tryCatch. by rewrite Hm. }
  destruct (browserFaults browser BR_requestPermission) eqn:Hr.
  { left. unfold FCMService.requestPermissionAndGetToken, browserCall, tryCatch, bind.
    by rewrite Hm, Hr. }
  destruct (permissionGranted browser) eqn:Hp.
  2: { left. unfold FCMService.requestPermissionAndGetToken, browserCall, tryCatch, bind.
       by rewrite Hm, Hr, Hp. }
  destruct (browserFaults browser BR_getToken) eqn:Hg.
  { left. unfold FCMService.requestPermissionAndGetToken, browserCall, tryCatch, bind.
    by rewrite Hm, Hr, Hp, Hg. }
  destruct (decide (registrationToken browser = "")) as [Ht|Ht].
  { left. unfold FCMService.requestPermissionAndGetToken, browserCall, tryCatch, bind.
    rewrite Hm, Hr, Hp, Hg. simpl. by rewrite bool_decide_true. }
  right. repeat split; try done.
  by apply requestPermissionAndGetToken_granted.
Qed.

(** [removeToken], by cases. *)
Lemma removeToken_outcome env browser userId s :
  FCMService.removeToken env browser userId s =
  match browserFaults browser BR_removeToken, fcmTokens s !! (userId +:+ "_web") with
  | None, Some t =>
      (withToken s (userId +:+ "_web")
         {| t_userId := t_userId t;
            t_token := t_token t;
            t_deviceType := t_deviceType t;
            t_createdAt := t_createdAt t;
            t_updatedAt := now env;
            t_isActive := false |},
       Ok tt)
  | _, _ => (s, Ok tt)
  end.
Proof.
  unfold FCMService.removeToken, deactivateTokenDoc, browserCall, tryCatch, bind,
    ret, throw.
  destruct (browserFaults browser BR_removeToken); simpl; [done|].
  by destruct (fcmTokens s !! _).
Qed.

End TokenFacts.

(** X25: [requestPermissionAndGetToken] never throws.  It returns [null]
    without touching the store unless messaging is available, the
    permission is granted and a non-empty registration token is obtained;
    then it returns that token, and the only change to the store is the
    user's token record, now active and holding that token -- unless the
    write failed, in which case the token is returned all the same and
    nothing is saved. *)
Theorem requestPermissionAndGetToken_saves_or_nothing
    (env : Env) (browser : Browser) (userId : string) (s : Store) :
  let outcome := FCMService.requestPermissionAndGetToken env browser userId s in
  match outcome.2 with
  | Throw _ => False
  | Ok None => outcome.1 = s
  | Ok (Some token) =>
      token = registrationToken browser
      ∧ token ≠ ""
      ∧ messagingAvailable browser = true
      ∧ permissionGranted browser = true
      ∧ match browserFaults browser BR_saveToken with
        | Some _ => outcome.1 = s
        | None =>
            outcome.1
            = mkStore (complaints s) (statusHistory s)
                (<[userId +:+ "_web" :=
                     {| t_userId := userId; t_token := token; t_deviceType := "web";
                        t_createdAt := now env; t_updatedAt := now env;
                        t_isActive := true |}]> (fcmTokens s))
                (notificationLogs s) (sentMessages s)
        end
  end.
Proof.
  destruct (requestPermissionAndGetToken_outcome env browser userId s)
    as [->|(Hm & Hp & Ht & ->)]; simpl; [done|].
  repeat split; try done.
  by destruct (browserFaults browser BR_saveToken).
Qed.

(** X26: logging out deactivates, it does not delete.  [removeToken] never
    throws; when the user's token record exists and the write succeeds, the
    record keeps its token and its creation time and is marked inactive;
    when there is no record or the write fails, the store is as it was, and
    no record is created. *)
Theorem removeToken_deactivates_in_place
    (env : Env) (browser : Browser) (userId : string) (s : Store) :
  let outcome := FCMService.removeToken env browser userId s in
  outcome.2 = Ok tt
  ∧ complaints outcome.1 = complaints s
  ∧ notificationLogs outcome.1 = notificationLogs s
  ∧ (∀ other, other ≠ userId +:+ "_web" →
              fcmTokens outcome.1 !! other = fcmTokens s !! other)
  ∧ match fcmTokens s !! (userId +:+ "_web") with
    | None => outcome.1 = s
    | Some t =>
        match browserFaults browser BR_removeToken with
        | Some _ => outcome.1 = s
        | None =>
            ∃ t', fcmTokens outcome.1 !! (userId +:+ "_web") = Some t'
                  ∧ t_token t' = t_token t
                  ∧ t_createdAt t' = t_createdAt t
                  ∧ t_updatedAt t' = now env
                  ∧ t_isActive t' = false
        end
    end.
Proof.
  simpl. rewrite removeToken_outcome.
  destruct (browserFaults browser BR_removeToken) as [msg|];
    destruct (fcmTokens s !! (userId +:+ "_web")) as [t|] eqn:Ht; simpl;
    repeat split; try done.
  - intros other Hne. by rewrite lookup_insert_ne.
  - eexists. split; [apply lookup_insert_eq|]. done.
Qed.

(** X27: after a logout that went through, dispatch is silent.  Once
    [cleanupUserNotifications] has deactivated the user's record, a
    [sendNotification] for that user returns [false] and the Trigger Handler
    returns [null] for a write by that user; neither logs or sends
    anything. *)
Theorem logout_silences_dispatch
    (env : Env) (browser : Browser) (s : Store) (user complaintId : string)
    (type : NotificationKind) (payload : NotificationPayload)
    (before : option (gmap string Value)) (newData : gmap string Value)
    (tokenData : FCMTokenData)
    (Hrecord : fcmTokens s !! (user +:+ "_web") = Some tokenData)
    (Hlogout : browserFaults browser BR_removeToken = None)
    (Hsubmitter : newData !! "userId" = Some (VStr user))
    (HreadClient : faults env FCM_getToken = None)
    (HreadTrigger : faults env TR_getToken = None) :
  let s1 := (NotificationService.cleanupUserNotifications env browser user s).1 in
  FCMService.sendNotification env (Some (VStr user)) complaintId type payload s1
  = (s1, Ok false)
  ∧ Functions.onComplaintStatusChange env before (Some newData) complaintId s1
    = (s1, Ok None).
Proof.
  simpl. unfold NotificationService.cleanupUserNotifications, tryCatch.
  rewrite removeToken_outcome, Hlogout, Hrecord. simpl.
  split.
  - apply sendNotification_no_token; [done|].
    unfold tokenUnavailable. simpl. by rewrite lookup_insert_eq.
  - apply onComplaintStatusChange_no_token; [done|].
    rewrite Hsubmitter. unfold tokenUnavailable. simpl. by rewrite lookup_insert_eq.
Qed.

Lemma logout_silences_dispatch_witness :
  let s1 := (NotificationService.cleanupUserNotifications calmEnv willingBrowser "u1"
               storeWithToken).1 in
  FCMService.sendNotification calmEnv (Some (VStr "u1")) "C1" acknowledgment
    (FCMService.generateNotificationContent calmEnv acknowledgment
       (complaintWithStatus "in-progress")) s1
  = (s1, Ok false)
  ∧ Functions.onComplaintStatusChange calmEnv (Some (complaintWithStatus "submitted"))
      (Some (complaintWithStatus "in-progress")) "C1" s1
    = (s1, Ok None).
Proof.
  apply (logout_silences_dispatch calmEnv willingBrowser storeWithToken "u1" "C1"
           acknowledgment _ (Some (complaintWithStatus "submitted"))
           (complaintWithStatus "in-progress") (tokenOfU1 true));
    vm_compute; reflexivity.
Defined.

(** X28: registering makes dispatch audible (again).  After
    [requestPermissionAndGetToken] has obtained a token and saved it, whether
    the user had no record or a deactivated one, [sendNotification] for that
    user returns [true] and logs one "sent" entry that carries the new
    token. *)
Theorem registration_enables_dispatch
    (env : Env) (browser : Browser) (s : Store) (user complaintId : string)
    (type : NotificationKind) (payload : NotificationPayload)
    (Hmessaging : messagingAvailable browser = true)
    (Hgranted : permissionGranted browser = true)
    (Htoken : registrationToken browser ≠ "")
    (Hbrowser : ∀ site, browserFaults browser site = None)
    (Hread : faults env FCM_getToken = None)
    (Hlog : faults env FCM_logSent = None) :
  let s1 := (FCMService.requestPermissionAndGetToken env browser user s).1 in
  ∃ l,
    FCMService.sendNotification env (Some (VStr user)) complaintId type payload s1
    = (mkStore (complaints s1) (statusHistory s1) (fcmTokens s1)
         (notificationLogs s1 ++ [l]) (sentMessages s1), Ok true)
    ∧ l_fcmToken l = Some (registrationToken browser)
    ∧ l_status l = "sent"
    ∧ l_type l = kindString type.
Proof.
  simpl.
  rewrite (requestPermissionAndGetToken_granted env browser user s Hmessaging Hgranted
             Htoken (Hbrowser _) (Hbrowser _)).
  rewrite Hbrowser. simpl.
  unfold FCMService.sendNotification, FCMService.logNotification, addLogDoc,
    tryCatch, bind.
  rewrite (getTokenDoc_ok _ _ _ _ Hread). simpl. rewrite lookup_insert_eq. simpl.
  rewrite (external_ok _ _ _ Hlog). simpl.
  eexists. split; [reflexivity|]. done.
Qed.

Lemma registration_enables_dispatch_witness :
  let s1 := (FCMService.requestPermissionAndGetToken calmEnv willingBrowser "u1"
               storeInactiveToken).1 in
  ∃ l,
    FCMService.sendNotification calmEnv (Some (VStr "u1")) "C1" acknowledgment
      (FCMService.generateNotificationContent calmEnv acknowledgment
         (complaintWithStatus "in-progress")) s1
    = (mkStore (complaints s1) (statusHistory s1) (fcmTokens s1)
         (notificationLogs s1 ++ [l]) (sentMessages s1), Ok true)
    ∧ l_fcmToken l = Some (registrationToken willingBrowser)
    ∧ l_status l = "sent"
    ∧ l_type l = kindString acknowledgment.
Proof.
  apply (registration_enables_dispatch calmEnv willingBrowser storeInactiveToken "u1"
           "C1" acknowledgment);
    try (vm_compute; reflexivity); discriminate.
Defined.

(** ** Dashboard statistics *)

Section StatisticsFacts.

Import DashboardStatsService.

Variable toLowerCase : string → string.

Implicit Types (c : StatsComplaint) (cs : list StatsComplaint).

Lemma count_cons (p : StatsComplaint → bool) c cs :
  count p (c :: cs) = ((if p c then 1 else 0) + count p cs)%nat.
Proof.
  unfold count. rewrite filter_cons.
  destruct (p c); [rewrite decide_True by done | rewrite decide_False by done]; done.
Qed.

Lemma count_le (p : StatsComplaint → bool) cs : (count p cs ≤ length cs)%nat.
Proof. apply length_filter. Qed.

(** The three status classes exclude one another. *)
Lemma status_classes_disjoint c :
  ((if isResolved toLowerCase c then 1 else 0)
   + (if isPending toLowerCase c then 1 else 0)
   + (if isEscalated toLowerCase c then 1 else 0) ≤ 1)%nat.
Proof.
  unfold isResolved, isPending, isEscalated.
  repeat case_bool_decide; simpl; try lia; congruence.
Qed.

Lemma breached_not_resolved now c :
  ((if SLA.dashboard_isSLABreached now (sc_complaint c) then 1 else 0)
   + (if bool_decide (SLA.uc_status (sc_complaint c) = Some "resolved") then 1 else 0)
   ≤ 1)%nat.
Proof.
  unfold SLA.dashboard_isSLABreached.
  case_bool_decide; simpl; [lia|].
  destruct (SLA.uc_createdAt _) as [[created|]|]; simpl; try lia.
  destruct (SLA.slaLimit _); simpl; try lia.
  destruct (negb _); lia.
Qed.

Lemma statsOf_bounds now cs :
  let st := statsOf toLowerCase now cs in
  (resolvedCount st + pendingCount st + escalatedCount st ≤ totalIssues st)%nat
  ∧ (slaBreached st
     + count (λ c, bool_decide (SLA.uc_status (sc_complaint c) = Some "resolved")) cs
     ≤ totalIssues st)%nat.
Proof.
  simpl. induction cs as [|c cs [IH1 IH2]]; [done|].
  rewrite !count_cons. simpl.
  pose proof (status_classes_disjoint c). pose proof (breached_not_resolved now c).
  split; lia.
Qed.

End StatisticsFacts.

(** X29: the counters of [getDashboardStats] are consistent whatever was
    fetched and however [toLowerCase] maps the statuses: resolved, pending
    and escalated complaints are disjoint classes, so their counts add up to
    at most the total; no complaint whose status is exactly "resolved" is
    counted as an SLA breach; and a failed fetch yields all zeros. *)
Theorem dashboard_counters_are_consistent
    (toLowerCase : string → string) (now : Z)
    (fetched : Result (list DashboardStatsService.StatsComplaint)) :
  let st := DashboardStatsService.getDashboardStats toLowerCase now fetched in
  (DashboardStatsService.resolvedCount st + DashboardStatsService.pendingCount st
   + DashboardStatsService.escalatedCount st ≤ DashboardStatsService.totalIssues st)%nat
  ∧ (DashboardStatsService.slaBreached st ≤ DashboardStatsService.totalIssues st)%nat
  ∧ match fetched with
    | Ok complaints =>
        DashboardStatsService.totalIssues st = length complaints
        ∧ (DashboardStatsService.slaBreached st
           + length (filter (λ c, SLA.uc_status (DashboardStatsService.sc_complaint c)
                                  = Some "resolved") complaints)
           ≤ length complaints)%nat
    | Throw _ => st = DashboardStatsService.zeroStats
    end.
Proof.
  destruct fetched as [complaints|e]; simpl; [|done].
  destruct (statsOf_bounds toLowerCase now complaints) as [H1 H2]. simpl in *.
  split; [exact H1|]. split; [apply count_le|]. split; [done|].
  etrans; [|exact H2]. apply Nat.add_le_mono_l.
  unfold DashboardStatsService.count.
  apply Nat.eq_le_incl. f_equal. apply list_filter_iff.
  intros c. by rewrite bool_decide_eq_true.
Qed.

Section DepartmentFacts.

Import DashboardStatsService.

Implicit Types (c : StatsComplaint) (cs : list StatsComplaint)
  (groups : gmap string (list StatsComplaint)).

Lemma groupByDepartment_None cs groups :
  groupByDepartment cs groups = None ↔
  ∃ c, c ∈ cs ∧ departmentOf c ∈ SLA.objectPrototypeKeys.
Proof.
  revert groups. induction cs as [|c cs IH]; intros groups; simpl.
  - split; [done | intros (c & Hc & _); by apply elem_of_nil in Hc].
  - case_bool_decide as Hkey.
    + split; [intros _; exists c; split; [left | done] | done].
    + rewrite IH. split.
      * intros (c' & Hc' & Hk). exists c'. split; [by right | done].
      * intros (c' & [->|Hc']%elem_of_cons & Hk); [done | by exists c'].
Qed.

Lemma groupByDepartment_lookup cs groups grouped d :
  groupByDepartment cs groups = Some grouped →
  grouped !! d =
  match groups !! d, ofDepartment d cs with
  | None, [] => None
  | before, added => Some (default [] before ++ added)
  end.
Proof.
  revert groups. induction cs as [|c cs IH]; intros groups; simpl.
  - intros [= <-]. destruct (groups !! d) as [l|]; [by rewrite app_nil_r | done].
  - case_bool_decide as Hkey; [done|]. intros Hrun.
    rewrite (IH _ Hrun). unfold ofDepartment. rewrite filter_cons.
    destruct (decide (departmentOf c = d)) as [<-|Hne].
    + rewrite lookup_insert_eq.
      destruct (groups !! departmentOf c) as [l|]; simpl.
      * destruct (filter _ cs); by rewrite <- ?app_assoc.
      * by destruct (filter _ cs).
    + by rewrite lookup_insert_ne.
Qed.

End DepartmentFacts.

(** X30: [getDepartmentStats] gives each department that has complaints
    the counters of exactly its own complaints (a complaint without a
    department counts under "Unassigned") and gives no entry to any other
    name -- provided no department is named like a member of
    [Object.prototype]; one such name, or a failed fetch, empties the whole
    result. *)
Theorem department_stats_are_per_department
    (toLowerCase : string → string) (now : Z)
    (complaints : list DashboardStatsService.StatsComplaint) :
  ((∀ c, c ∈ complaints →
         DashboardStatsService.departmentOf c ∉ SLA.objectPrototypeKeys) →
   ∀ d,
     DashboardStatsService.getDepartmentStats toLowerCase now (Ok complaints) !! d
     = match ofDepartment d complaints with
       | [] => None
       | own => Some (DashboardStatsService.statsOf toLowerCase now own)
       end)
  ∧ ((∃ c, c ∈ complaints
           ∧ DashboardStatsService.departmentOf c ∈ SLA.objectPrototypeKeys) →
     DashboardStatsService.getDepartmentStats toLowerCase now (Ok complaints) = ∅)
  ∧ ∀ e, DashboardStatsService.getDepartmentStats toLowerCase now (Throw e) = ∅.
Proof.
  split; [|split; [|done]].
  - intros Hsafe d. unfold DashboardStatsService.getDepartmentStats.
    destruct (DashboardStatsService.groupByDepartment complaints ∅) as [grouped|] eqn:Hrun.
    + rewrite lookup_fmap, (groupByDepartment_lookup _ _ _ d Hrun), lookup_empty.
      by destruct (ofDepartment d complaints).
    + apply groupByDepartment_None in Hrun as (c & Hc & Hk). by destruct (Hsafe c Hc).
  - intros Hbad. unfold DashboardStatsService.getDepartmentStats.
    by rewrite (proj2 (groupByDepartment_None complaints ∅) Hbad).
Qed.

Lemma department_stats_are_per_department_witness :
  DashboardStatsService.getDepartmentStats (λ st, st) 0
    (Ok [ DashboardStatsService.mkStatsComplaint
            (SLA.mkUserComplaint (Some "resolved") None None) (Some "Public Works");
          DashboardStatsService.mkStatsComplaint
            (SLA.mkUserComplaint (Some "submitted") None None) None ])
    !! "Unassigned"
  = Some (DashboardStatsService.mkDashboardStats 1 0 1 0 0).
Proof.
  rewrite (proj1 (department_stats_are_per_department (λ st, st) 0 _)).
  - vm_compute; reflexivity.
  - intros c Hc. rewrite !elem_of_cons, elem_of_nil in Hc.
    destruct Hc as [-> | [-> | []]]; apply (bool_decide_unpack _); vm_compute;
      reflexivity.
Defined.
